(** * TallySheet (Assignment5.py): a shallow embedding and its properties

    The Python class [TallySheet] keeps a title and a dict from category
    names to counts.  Its methods mutate the object in place and signal
    violations by raising [TypeError], [ValueError] or [KeyError].

    Modelling choices.
    - The interpreter is Python 3: comparing a [str] or [None] with [0]
      raises [TypeError].
    - Python values that reach the class are taken from the universe
      [PyVal]: integers (unbounded, [Z]), booleans, strings and [None].
      Floats are outside the model.
    - A [str] is a Rocq [string]; each character stands for one code point.
      [sorted] on strings compares code points lexicographically, which is
      [String.compare].
    - A [dict] is an association list in insertion order: assigning to an
      existing key keeps its position, assigning to a new key appends,
      [del] removes the entry.
    - [bool] is a subclass of [int]; a boolean amount is used through its
      integer value ([True == 1]), which is what [+=], [-=], the comparisons
      and [%d] observe.
    - A method is a computation in a state-and-exception monad over the
      object: it returns either a value or the exception raised, together
      with the object as it is at that point. *)

From Stdlib Require Import ZArith List Bool Lia.
From Stdlib Require Import Strings.String Strings.Ascii Numbers.DecimalString.
From Stdlib Require Import Sorting.Sorted Sorting.Permutation.
Import ListNotations.

Local Open Scope string_scope.
Local Open Scope Z_scope.

(** ** Python values *)

Module Py.

Inductive PyVal : Type :=
| VInt (z : Z)
| VBool (b : bool)
| VStr (s : string)
| VNone.

Inductive PyExc : Type :=
| TypeError
| ValueError
| KeyError.

(** [str(int)] and the [%d] conversion: decimal digits, a leading [-] for
    negative numbers, no leading zeros. *)
Definition str_int (z : Z) : string :=
  NilZero.string_of_int (Z.to_int z).

(** [str(x)] *)
Definition str (v : PyVal) : string :=
  match v with
  | VInt z => str_int z
  | VBool true => "True"
  | VBool false => "False"
  | VStr s => s
  | VNone => "None"
  end.

(** [isinstance(x, str)] *)
Definition isinstance_str (v : PyVal) : bool :=
  match v with
  | VStr _ => true
  | _ => false
  end.

(** [isinstance(x, int)]: [bool] is a subclass of [int]. *)
Definition isinstance_int (v : PyVal) : bool :=
  match v with
  | VInt _ | VBool _ => true
  | _ => false
  end.

(** The integer an [int] instance denotes in arithmetic and in
    comparisons with an [int]; [None] for the values on which
    [x < 0] raises [TypeError]. *)
Definition int_value (v : PyVal) : option Z :=
  match v with
  | VInt z => Some z
  | VBool b => Some (Z.b2z b)
  | _ => None
  end.

(** [s.ljust(width)], the [%-30s] conversion with [width = 30]: pads on the
    right with spaces, never truncates. *)
Fixpoint spaces (n : nat) : string :=
  match n with
  | O => EmptyString
  | S k => String " " (spaces k)
  end.

Definition ljust (width : nat) (s : string) : string :=
  s ++ spaces (width - String.length s).

(** [s.center(width)] for an even [width]: the left margin takes the
    smaller half of the padding. *)
Definition center_even (width : nat) (s : string) : string :=
  let marg := (width - String.length s)%nat in
  let left := Nat.div2 marg in
  spaces left ++ s ++ spaces (marg - left).

Definition newline : string := String (ascii_of_nat 10) EmptyString.

End Py.

Import Py.

(** ** The dict of categories *)

Module Dict.

Definition dict : Type := list (string * Z).

(** [k in d.keys()] *)
Fixpoint contains (k : string) (d : dict) : bool :=
  match d with
  | [] => false
  | (k', _) :: d' => if String.eqb k k' then true else contains k d'
  end.

(** [d[k]] as an expression; [None] is Python's [KeyError]. *)
Fixpoint getitem (k : string) (d : dict) : option Z :=
  match d with
  | [] => None
  | (k', v) :: d' => if String.eqb k k' then Some v else getitem k d'
  end.

(** [d[k] = v]: an existing key keeps its place, a new one goes last. *)
Fixpoint setitem (k : string) (v : Z) (d : dict) : dict :=
  match d with
  | [] => [(k, v)]
  | (k', v') :: d' =>
      if String.eqb k k' then (k', v) :: d' else (k', v') :: setitem k v d'
  end.

(** [del d[k]] for a key that is present. *)
Fixpoint delitem (k : string) (d : dict) : dict :=
  match d with
  | [] => []
  | (k', v') :: d' =>
      if String.eqb k k' then d' else (k', v') :: delitem k d'
  end.

Definition keys (d : dict) : list string := map fst d.
Definition values (d : dict) : list Z := map snd d.
Definition items (d : dict) : list (string * Z) := d.

End Dict.

Import Dict.

(** ** [sorted]: a stable sort, here by insertion *)

Section Sorted.
Context {A : Type}.
Variable le : A -> A -> bool.

Fixpoint insert (x : A) (l : list A) : list A :=
  match l with
  | [] => [x]
  | y :: l' => if le x y then x :: y :: l' else y :: insert x l'
  end.

Fixpoint sorted (l : list A) : list A :=
  match l with
  | [] => []
  | x :: l' => insert x (sorted l')
  end.
End Sorted.

(** ** The object and the monad of its methods *)

(** [_title] and [_categories] are set by the constructor.  [title] is the
    attribute that [setTitle] assigns; it does not exist before the first
    successful [setTitle]. *)
Record TallySheet : Type := mkTallySheet {
  _title : string;
  _categories : dict;
  title : option string
}.

Inductive result (A : Type) : Type :=
| Ok (a : A)
| Raise (e : PyExc).
Arguments Ok {A} a.
Arguments Raise {A} e.

Definition M (A : Type) : Type := TallySheet -> result A * TallySheet.

Definition ret {A} (a : A) : M A := fun self => (Ok a, self).

Definition raise {A} (e : PyExc) : M A := fun self => (Raise e, self).

Definition bind {A B} (m : M A) (f : A -> M B) : M B :=
  fun self =>
    match m self with
    | (Ok a, self') => f a self'
    | (Raise e, self') => (Raise e, self')
    end.

Declare Scope py_scope.
Delimit Scope py_scope with py.
Notation "x <- m ;; k" := (bind m (fun x => k))
  (at level 100, m at next level, right associativity) : py_scope.
Notation "m ;; k" := (bind m (fun _ => k))
  (at level 100, right associativity) : py_scope.
Local Open Scope py_scope.

Definition get_categories : M dict := fun self => (Ok (_categories self), self).

Definition put_categories (d : dict) : M unit :=
  fun self => (Ok tt, mkTallySheet (_title self) d (title self)).

(** [self._categories[k]] read: [KeyError] when [k] is missing. *)
Definition categories_getitem (k : string) : M Z :=
  d <- get_categories ;;
  match getitem k d with
  | Some v => ret v
  | None => raise KeyError
  end.

(** [self._categories[k] = v] *)
Definition categories_setitem (k : string) (v : Z) : M unit :=
  d <- get_categories ;;
  put_categories (setitem k v d).

(** [del self._categories[k]] *)
Definition categories_delitem (k : string) : M unit :=
  d <- get_categories ;;
  if contains k d then put_categories (delitem k d) else raise KeyError.

(** [k in self._categories.keys()] *)
Definition categories_contains (k : string) : M bool :=
  d <- get_categories ;;
  ret (contains k d).

(** The value of [amount] in a comparison with an [int] or in [+=]/[-=]:
    [TypeError] for a [str] or [None]. *)
Definition as_int (amount : PyVal) : M Z :=
  match int_value amount with
  | Some z => ret z
  | None => raise TypeError
  end.

(** [for x in xs: body(x)] *)
Fixpoint for_each {A} (xs : list A) (body : A -> M unit) : M unit :=
  match xs with
  | [] => ret tt
  | x :: xs' => body x ;; for_each xs' body
  end.

(** ** The class *)

(** [TallySheet(title)] *)
Definition init (title : PyVal) : result TallySheet :=
  match title with
  | VStr t => Ok (mkTallySheet t [] None)
  | _ => Raise TypeError
  end.

(** [TallySheet()] *)
Definition init_default : result TallySheet := init (VStr "Tally Sheet").

Definition getTitle : M string :=
  fun self => (Ok (_title self), self).

(** The assignment is to [self.title], not to [self._title]. *)
Definition setTitle (newTitle : PyVal) : M unit :=
  match newTitle with
  | VStr t =>
      fun self => (Ok tt, mkTallySheet (_title self) (_categories self) (Some t))
  | _ => raise TypeError
  end.

Definition addCategory (category amount : PyVal) : M unit :=
  let category := str category in
  if negb (isinstance_int amount) then raise TypeError else
  amount <- as_int amount ;;
  if amount <? 0 then raise ValueError else
  present <- categories_contains category ;;
  if present then
    old <- categories_getitem category ;;
    categories_setitem category (old + amount)
  else
    categories_setitem category amount.

Definition removeCategory (category : PyVal) : M unit :=
  let category := str category in
  present <- categories_contains category ;;
  if present then categories_delitem category else raise KeyError.

Definition getTally (category : PyVal) : M Z :=
  let category := str category in
  present <- categories_contains category ;;
  if present then categories_getitem category else raise KeyError.

Definition setTally (category amount : PyVal) : M unit :=
  let category := str category in
  amount <- as_int amount ;;
  if amount <? 0 then raise ValueError else
  present <- categories_contains category ;;
  if present then categories_setitem category amount else raise KeyError.

Definition increment (category amount : PyVal) : M unit :=
  let category := str category in
  amount <- as_int amount ;;
  if amount <? 0 then raise ValueError else
  present <- categories_contains category ;;
  if present then
    old <- categories_getitem category ;;
    categories_setitem category (old + amount)
  else raise KeyError.

Definition decrement (category amount : PyVal) : M unit :=
  let category := str category in
  amount <- as_int amount ;;
  if amount <? 0 then raise ValueError else
  present <- categories_contains category ;;
  if present then
    current <- categories_getitem category ;;
    if amount >? current then raise ValueError else
    old <- categories_getitem category ;;
    categories_setitem category (old - amount)
  else raise KeyError.

(** The loop runs over the keys of the dict; [setTally] on a key that is
    present never changes the set of keys, so the keys seen by the loop
    are those at its start. *)
Definition zeroAll : M unit :=
  d <- get_categories ;;
  for_each (keys d) (fun key => setTally (VStr key) (VInt 0)).

(** ["%-30s %d\n" % (category, count)] *)
Definition format_line (category : string) (count : Z) : string :=
  ljust 30 category ++ " " ++ str_int count ++ newline.

(** [for category in cats: count = self._categories[category];
     resultStr += line] *)
Fixpoint lines_of_keys (cats : list string) (resultStr : string) : M string :=
  match cats with
  | [] => ret resultStr
  | category :: cats' =>
      count <- categories_getitem category ;;
      lines_of_keys cats' (resultStr ++ format_line category count)
  end.

Definition itemsSortedByCategory : M string :=
  d <- get_categories ;;
  lines_of_keys (sorted String.leb (keys d)) EmptyString.

(** [for category, count in rows: resultStr += line] *)
Fixpoint lines_of_items (rows : list (string * Z)) (resultStr : string) : string :=
  match rows with
  | [] => resultStr
  | (category, count) :: rows' =>
      lines_of_items rows' (resultStr ++ format_line category count)
  end.

Definition itemsSortedByCount : M string :=
  d <- get_categories ;;
  ret (lines_of_items
         (sorted (fun a b => snd a <=? snd b) (items d)) EmptyString).

(** [str(sheet)] *)
Definition to_str : M string :=
  t <- getTitle ;;
  d <- get_categories ;;
  lines_of_keys (sorted String.leb (keys d))
                (center_even 60 t ++ newline ++ newline).

(** Default arguments. *)
Definition addCategory0 (category : PyVal) : M unit := addCategory category (VInt 0).
Definition increment1 (category : PyVal) : M unit := increment category (VInt 1).
Definition decrement1 (category : PyVal) : M unit := decrement category (VInt 1).

(** ** Sequences of calls *)

Inductive Call : Type :=
| CallSetTitle (newTitle : PyVal)
| CallGetTitle
| CallAddCategory (category amount : PyVal)
| CallRemoveCategory (category : PyVal)
| CallGetTally (category : PyVal)
| CallSetTally (category amount : PyVal)
| CallIncrement (category amount : PyVal)
| CallDecrement (category amount : PyVal)
| CallZeroAll
| CallItemsSortedByCategory
| CallItemsSortedByCount
| CallStr.

(** The object after a call, whether the call returned or raised. *)
Definition after {A} (m : M A) (self : TallySheet) : TallySheet := snd (m self).

(** What the call returned or raised. *)
Definition outcome {A} (m : M A) (self : TallySheet) : result A := fst (m self).

Definition exec (c : Call) (self : TallySheet) : TallySheet :=
  match c with
  | CallSetTitle t => after (setTitle t) self
  | CallGetTitle => after getTitle self
  | CallAddCategory c a => after (addCategory c a) self
  | CallRemoveCategory c => after (removeCategory c) self
  | CallGetTally c => after (getTally c) self
  | CallSetTally c a => after (setTally c a) self
  | CallIncrement c a => after (increment c a) self
  | CallDecrement c a => after (decrement c a) self
  | CallZeroAll => after zeroAll self
  | CallItemsSortedByCategory => after itemsSortedByCategory self
  | CallItemsSortedByCount => after itemsSortedByCount self
  | CallStr => after to_str self
  end.

Definition run (cs : list Call) (self : TallySheet) : TallySheet :=
  fold_left (fun s c => exec c s) cs self.

(** The sheets a client can obtain: a constructed one, then any calls. *)
Definition reachable (s : TallySheet) : Prop :=
  exists t s0 cs, init t = Ok s0 /\ s = run cs s0.

(** The representation invariant of the dict and the invariant of the
    counts. *)
Definition unique_keys (s : TallySheet) : Prop := NoDup (keys (_categories s)).
Definition nonneg (s : TallySheet) : Prop :=
  Forall (fun v => 0 <= v) (values (_categories s)).

(** ** Definitions used in the statements *)

(** The sheet with its dict replaced. *)
Definition with_categories (s : TallySheet) (d : dict) : TallySheet :=
  mkTallySheet (_title s) d (title s).

Definition invariant (s : TallySheet) : Prop := unique_keys s /\ nonneg s.

(** The text made of one formatted line per row, in the order of the
    rows. *)
Fixpoint join_lines (rows : list (string * Z)) : string :=
  match rows with
  | [] => EmptyString
  | (category, count) :: rows' => format_line category count ++ join_lines rows'
  end.

(** The count of [k], and 0 for a key that is missing. *)
Definition count_or_zero (d : dict) (k : string) : Z :=
  match getitem k d with Some v => v | None => 0 end.

(** The dict after [d[k] = 0] for each [k] of [ks] in turn. *)
Definition zero_keys (ks : list string) (d : dict) : dict :=
  fold_left (fun d k => setitem k 0 d) ks d.

(** The orders of the two listings, and the rows of a given count. *)
Definition by_category (a b : string * Z) : Prop :=
  String.leb (fst a) (fst b) = true.

Definition by_count (a b : string * Z) : Prop := snd a <= snd b.

Definition has_count (n : Z) (row : string * Z) : bool := snd row =? n.

(** Two sheets to run the methods on. *)
Definition birds : TallySheet :=
  mkTallySheet "Birds" [("robin", 5); ("sparrow", 10); ("cardinal", 3)] None.

Definition ties : TallySheet :=
  mkTallySheet "Ties" [("wren", 2); ("crow", 1); ("auk", 2)] None.

(** [for count in range(n): m], as in the loop of [main] that calls
    [decrement] five times. *)
Definition repeat_call (n : nat) (m : M unit) : M unit :=
  for_each (seq 0 n) (fun _ => m).

(** The exception a result carries, if any. *)
Definition exception_of {A} (r : result A) : option PyExc :=
  match r with
  | Ok _ => None
  | Raise e => Some e
  end.

(** The exception a call raises on a sheet, if any. *)
Definition raised (c : Call) (self : TallySheet) : option PyExc :=
  match c with
  | CallSetTitle t => exception_of (outcome (setTitle t) self)
  | CallGetTitle => exception_of (outcome getTitle self)
  | CallAddCategory c a => exception_of (outcome (addCategory c a) self)
  | CallRemoveCategory c => exception_of (outcome (removeCategory c) self)
  | CallGetTally c => exception_of (outcome (getTally c) self)
  | CallSetTally c a => exception_of (outcome (setTally c a) self)
  | CallIncrement c a => exception_of (outcome (increment c a) self)
  | CallDecrement c a => exception_of (outcome (decrement c a) self)
  | CallZeroAll => exception_of (outcome zeroAll self)
  | CallItemsSortedByCategory =>
      exception_of (outcome itemsSortedByCategory self)
  | CallItemsSortedByCount => exception_of (outcome itemsSortedByCount self)
  | CallStr => exception_of (outcome to_str self)
  end.

(** A call that can add a key, a call that can remove one. *)
Definition is_addCategory (c : Call) : bool :=
  match c with CallAddCategory _ _ => true | _ => false end.

Definition is_removeCategory (c : Call) : bool :=
  match c with CallRemoveCategory _ => true | _ => false end.

(** Every count set to 0, the keys and their order kept. *)
Definition zeroed (d : dict) : dict := map (fun kv => (fst kv, 0)) d.

(** The sheet [ties] with its categories added in another order. *)
Definition ties_reordered : TallySheet :=
  mkTallySheet "Ties" [("auk", 2); ("wren", 2); ("crow", 1)] None.

(** ** Running the model *)

Example str_int_5 : str (VInt 5) = "5".
Proof. reflexivity. Qed.

Example str_int_0 : str (VInt 0) = "0".
Proof. reflexivity. Qed.

Example str_int_neg : str (VInt (-120)) = "-120".
Proof. reflexivity. Qed.

Example ljust_robin : ljust 10 "robin" = "robin     ".
Proof. reflexivity. Qed.

Example birds_by_count :
  outcome itemsSortedByCount birds =
  Ok ("cardinal                       3" ++ newline ++
      "robin                          5" ++ newline ++
      "sparrow                        10" ++ newline).
Proof. reflexivity. Qed.

Example birds_by_category :
  outcome itemsSortedByCategory birds =
  Ok ("cardinal                       3" ++ newline ++
      "robin                          5" ++ newline ++
      "sparrow                        10" ++ newline).
Proof. reflexivity. Qed.

Example birds_decrement_too_much :
  decrement (VStr "cardinal") (VInt 4) birds = (Raise ValueError, birds).
Proof. reflexivity. Qed.

(** ** Facts about the dict *)

Module DictFacts.

Ltac case_key k k' :=
  destruct (String.eqb_spec k k') as [?Hkey | ?Hkey]; subst; simpl.

Lemma contains_In (k : string) (d : dict) :
  contains k d = true <-> In k (keys d).
Proof.
  induction d as [| [k' v'] d IH]; simpl.
  - split; [discriminate | tauto].
  - case_key k k'.
    + tauto.
    + rewrite IH. split; [tauto | intros [H | H]; [congruence | exact H]].
Qed.

Lemma getitem_contains (k : string) (d : dict) :
  contains k d = true <-> exists v, getitem k d = Some v.
Proof.
  induction d as [| [k' v'] d IH]; simpl.
  - split; [discriminate | intros [v H]; discriminate].
  - case_key k k'.
    + split; eauto.
    + exact IH.
Qed.

Lemma getitem_absent (k : string) (d : dict) :
  contains k d = false <-> getitem k d = None.
Proof.
  induction d as [| [k' v'] d IH]; simpl.
  - tauto.
  - case_key k k'.
    + split; discriminate.
    + exact IH.
Qed.

Lemma getitem_setitem_same (k : string) (v : Z) (d : dict) :
  getitem k (setitem k v d) = Some v.
Proof.
  induction d as [| [k' v'] d IH]; simpl.
  - now rewrite String.eqb_refl.
  - case_key k k'.
    + now rewrite String.eqb_refl.
    + destruct (String.eqb_spec k k'); [contradiction | exact IH].
Qed.

Lemma getitem_setitem_other (k k0 : string) (v : Z) (d : dict) :
  k0 <> k -> getitem k0 (setitem k v d) = getitem k0 d.
Proof.
  intros Hne. induction d as [| [k' v'] d IH]; simpl.
  - destruct (String.eqb_spec k0 k); [contradiction | reflexivity].
  - case_key k k'.
    + destruct (String.eqb_spec k0 k'); [contradiction | reflexivity].
    + now rewrite IH.
Qed.

Lemma contains_setitem (k k0 : string) (v : Z) (d : dict) :
  contains k0 (setitem k v d) = (String.eqb k0 k || contains k0 d)%bool.
Proof.
  induction d as [| [k' v'] d IH]; simpl.
  - destruct (String.eqb k0 k); reflexivity.
  - case_key k k'.
    + destruct (String.eqb k0 k'); reflexivity.
    + rewrite IH. destruct (String.eqb k0 k'), (String.eqb k0 k); reflexivity.
Qed.

Lemma keys_setitem_present (k : string) (v : Z) (d : dict) :
  contains k d = true -> keys (setitem k v d) = keys d.
Proof.
  induction d as [| [k' v'] d IH]; simpl.
  - discriminate.
  - case_key k k'.
    + reflexivity.
    + intros H. f_equal. now apply IH.
Qed.

Lemma setitem_absent (k : string) (v : Z) (d : dict) :
  contains k d = false -> setitem k v d = (d ++ [(k, v)])%list.
Proof.
  induction d as [| [k' v'] d IH]; simpl.
  - reflexivity.
  - case_key k k'.
    + discriminate.
    + intros H. f_equal. now apply IH.
Qed.

Lemma setitem_setitem (k : string) (v w : Z) (d : dict) :
  contains k d = true -> setitem k v (setitem k w d) = setitem k v d.
Proof.
  induction d as [| [k' v'] d IH]; simpl.
  - discriminate.
  - case_key k k'.
    + now rewrite String.eqb_refl.
    + destruct (String.eqb_spec k k'); [contradiction |].
      intros H. f_equal. now apply IH.
Qed.

Lemma setitem_getitem (k : string) (v : Z) (d : dict) :
  getitem k d = Some v -> setitem k v d = d.
Proof.
  induction d as [| [k' v'] d IH]; simpl.
  - discriminate.
  - case_key k k'.
    + congruence.
    + intros H. f_equal. now apply IH.
Qed.

Lemma values_setitem (P : Z -> Prop) (k : string) (v : Z) (d : dict) :
  P v -> Forall P (values d) -> Forall P (values (setitem k v d)).
Proof.
  intros Hv. induction d as [| [k' v'] d IH]; simpl; intros Hd.
  - constructor; [exact Hv | constructor].
  - inversion Hd; subst. case_key k k'; constructor; auto.
Qed.

Lemma values_delitem (P : Z -> Prop) (k : string) (d : dict) :
  Forall P (values d) -> Forall P (values (delitem k d)).
Proof.
  induction d as [| [k' v'] d IH]; simpl; intros Hd.
  - constructor.
  - inversion Hd; subst. case_key k k'; [assumption | constructor; auto].
Qed.

Lemma values_getitem (P : Z -> Prop) (k : string) (v : Z) (d : dict) :
  Forall P (values d) -> getitem k d = Some v -> P v.
Proof.
  induction d as [| [k' v'] d IH]; simpl; intros Hd.
  - discriminate.
  - inversion Hd; subst. case_key k k'.
    + congruence.
    + now apply IH.
Qed.

Lemma In_keys_delitem (k k0 : string) (d : dict) :
  In k0 (keys (delitem k d)) -> In k0 (keys d).
Proof.
  induction d as [| [k' v'] d IH]; simpl.
  - tauto.
  - case_key k k'; simpl; tauto.
Qed.

Lemma NoDup_keys_delitem (k : string) (d : dict) :
  NoDup (keys d) -> NoDup (keys (delitem k d)).
Proof.
  induction d as [| [k' v'] d IH]; simpl; intros Hd.
  - constructor.
  - inversion Hd; subst. case_key k k'; [assumption |].
    constructor; [| now apply IH].
    intros Hin. now apply In_keys_delitem in Hin.
Qed.

Lemma NoDup_keys_setitem (k : string) (v : Z) (d : dict) :
  NoDup (keys d) -> NoDup (keys (setitem k v d)).
Proof.
  intros Hd. destruct (contains k d) eqn:Hc.
  - now rewrite keys_setitem_present.
  - rewrite setitem_absent by exact Hc. unfold keys. rewrite map_app. simpl.
    apply NoDup_app; [exact Hd | repeat constructor; simpl; tauto |].
    intros x Hx [<- | []].
    apply contains_In in Hx. congruence.
Qed.

(** With unique keys, a dict whose every key maps to [z] has only [z]s. *)
Lemma values_constant (z : Z) (d : dict) :
  NoDup (keys d) ->
  (forall k, In k (keys d) -> getitem k d = Some z) ->
  Forall (fun v => v = z) (values d).
Proof.
  induction d as [| [k' v'] d IH]; simpl; intros Hd Hall.
  - constructor.
  - inversion Hd as [| ? ? Hnotin Hd']; subst. constructor.
    + specialize (Hall k' (or_introl eq_refl)).
      rewrite String.eqb_refl in Hall. congruence.
    + apply IH; [exact Hd' |]. intros k Hk.
      specialize (Hall k (or_intror Hk)).
      destruct (String.eqb_spec k k'); [subst; contradiction | exact Hall].
Qed.

(** With unique keys, looking every key up again rebuilds the items. *)
Lemma items_by_lookup (d : dict) :
  NoDup (keys d) ->
  map (fun k => (k, match getitem k d with Some v => v | None => 0 end))
      (keys d) = items d.
Proof.
  unfold items. induction d as [| [k' v'] d IH]; simpl; intros Hd.
  - reflexivity.
  - inversion Hd as [| ? ? Hnotin Hd']; subst.
    rewrite String.eqb_refl. f_equal.
    rewrite <- (IH Hd') at 2. apply map_ext_in. intros k Hk.
    destruct (String.eqb_spec k k'); [subst; contradiction | reflexivity].
Qed.

End DictFacts.

Import DictFacts.

(** ** What each method computes *)

Lemma with_categories_same (s : TallySheet) :
  with_categories s (_categories s) = s.
Proof. now destruct s. Qed.

Lemma bind_Ok {A B} (m : M A) (f : A -> M B) (s s' : TallySheet) (a : A) :
  m s = (Ok a, s') -> bind m f s = f a s'.
Proof. intros H. unfold bind. now rewrite H. Qed.

Lemma bind_Raise {A B} (m : M A) (f : A -> M B) (s s' : TallySheet) (e : PyExc) :
  m s = (Raise e, s') -> bind m f s = (Raise e, s').
Proof. intros H. unfold bind. now rewrite H. Qed.

Lemma categories_getitem_Some (k : string) (s : TallySheet) (v : Z) :
  getitem k (_categories s) = Some v -> categories_getitem k s = (Ok v, s).
Proof.
  intros H. unfold categories_getitem, get_categories, bind, ret. now rewrite H.
Qed.

Ltac unfold_method :=
  unfold outcome, after, addCategory, removeCategory, getTally, setTally,
    increment, decrement, as_int, categories_contains, categories_getitem,
    categories_setitem, categories_delitem, get_categories, put_categories,
    bind, ret, raise, with_categories; simpl.

Section MethodEquations.
Variable s : TallySheet.
Variable category : PyVal.

Let k := str category.
Let d := _categories s.

Lemma getTally_eq :
  getTally category s =
  match getitem k d with
  | Some v => (Ok v, s)
  | None => (Raise KeyError, s)
  end.
Proof.
  subst k d. unfold_method.
  destruct (contains (str category) (_categories s)) eqn:Hc.
  - apply getitem_contains in Hc as [v Hv]. now rewrite Hv.
  - apply getitem_absent in Hc. now rewrite Hc.
Qed.

Lemma removeCategory_eq :
  removeCategory category s =
  if contains k d then (Ok tt, with_categories s (delitem k d))
  else (Raise KeyError, s).
Proof.
  subst k d. unfold_method.
  destruct (contains (str category) (_categories s)) eqn:Hc; simpl.
  - now rewrite Hc.
  - reflexivity.
Qed.

Variable amount : PyVal.

Lemma addCategory_eq :
  addCategory category amount s =
  match int_value amount with
  | None => (Raise TypeError, s)
  | Some z =>
      if z <? 0 then (Raise ValueError, s) else
      match getitem k d with
      | Some old => (Ok tt, with_categories s (setitem k (old + z) d))
      | None => (Ok tt, with_categories s (setitem k z d))
      end
  end.
Proof.
  subst k d. unfold_method.
  destruct amount as [z | b | t |]; simpl; try reflexivity.
  - destruct (z <? 0); [reflexivity |].
    destruct (contains (str category) (_categories s)) eqn:Hc; simpl.
    + apply getitem_contains in Hc as [v Hv]. now rewrite Hv.
    + apply getitem_absent in Hc. now rewrite Hc.
  - destruct (Z.b2z b <? 0); [reflexivity |].
    destruct (contains (str category) (_categories s)) eqn:Hc; simpl.
    + apply getitem_contains in Hc as [v Hv]. now rewrite Hv.
    + apply getitem_absent in Hc. now rewrite Hc.
Qed.

Lemma setTally_eq :
  setTally category amount s =
  match int_value amount with
  | None => (Raise TypeError, s)
  | Some z =>
      if z <? 0 then (Raise ValueError, s) else
      if contains k d then (Ok tt, with_categories s (setitem k z d))
      else (Raise KeyError, s)
  end.
Proof.
  subst k d. unfold_method.
  destruct (int_value amount) as [z |]; [| reflexivity].
  destruct (z <? 0); [reflexivity |].
  now destruct (contains (str category) (_categories s)).
Qed.

Lemma increment_eq :
  increment category amount s =
  match int_value amount with
  | None => (Raise TypeError, s)
  | Some z =>
      if z <? 0 then (Raise ValueError, s) else
      match getitem k d with
      | Some old => (Ok tt, with_categories s (setitem k (old + z) d))
      | None => (Raise KeyError, s)
      end
  end.
Proof.
  subst k d. unfold_method.
  destruct (int_value amount) as [z |]; [| reflexivity].
  destruct (z <? 0); [reflexivity |].
  destruct (contains (str category) (_categories s)) eqn:Hc; simpl.
  - apply getitem_contains in Hc as [v Hv]. now rewrite Hv.
  - apply getitem_absent in Hc. now rewrite Hc.
Qed.

Lemma decrement_eq :
  decrement category amount s =
  match int_value amount with
  | None => (Raise TypeError, s)
  | Some z =>
      if z <? 0 then (Raise ValueError, s) else
      match getitem k d with
      | Some old =>
          if z >? old then (Raise ValueError, s)
          else (Ok tt, with_categories s (setitem k (old - z) d))
      | None => (Raise KeyError, s)
      end
  end.
Proof.
  subst k d. unfold_method.
  destruct (int_value amount) as [z |]; [| reflexivity].
  destruct (z <? 0); [reflexivity |].
  destruct (contains (str category) (_categories s)) eqn:Hc; simpl.
  - apply getitem_contains in Hc as [v Hv]. rewrite Hv.
    destruct (z >? v); [reflexivity |]. simpl. now rewrite Hv.
  - apply getitem_absent in Hc. now rewrite Hc.
Qed.
End MethodEquations.

(** ** Facts about [sorted] *)

Section SortedFacts.
Context {A : Type}.
Variable le : A -> A -> bool.

Lemma insert_perm (x : A) (l : list A) :
  Permutation (insert le x l) (x :: l).
Proof.
  induction l as [| y l IH]; simpl.
  - apply Permutation_refl.
  - destruct (le x y).
    + apply Permutation_refl.
    + eapply perm_trans; [apply perm_skip, IH | apply perm_swap].
Qed.

Lemma sorted_perm (l : list A) : Permutation (sorted le l) l.
Proof.
  induction l as [| x l IH]; simpl.
  - constructor.
  - eapply perm_trans; [apply insert_perm | now apply perm_skip].
Qed.

(** Elements that satisfy [p] and are pairwise in order are never
    reordered by an insertion: this is what makes the sort stable. *)
Lemma insert_filter (p : A -> bool) (x : A) (l : list A) :
  (forall a b, p a = true -> p b = true -> le a b = true) ->
  filter p (insert le x l) = filter p (x :: l).
Proof.
  intros Hp. induction l as [| y l IH]; simpl.
  - reflexivity.
  - destruct (le x y) eqn:Hxy; simpl.
    + reflexivity.
    + rewrite IH. simpl.
      destruct (p y) eqn:Hy, (p x) eqn:Hx; try reflexivity.
      rewrite (Hp x y Hx Hy) in Hxy. discriminate.
Qed.

Lemma sorted_filter (p : A -> bool) (l : list A) :
  (forall a b, p a = true -> p b = true -> le a b = true) ->
  filter p (sorted le l) = filter p l.
Proof.
  intros Hp. induction l as [| x l IH]; simpl.
  - reflexivity.
  - rewrite insert_filter by exact Hp. simpl. now rewrite IH.
Qed.

Hypothesis le_total : forall a b, le a b = true \/ le b a = true.
Hypothesis le_trans :
  forall a b c, le a b = true -> le b c = true -> le a c = true.

Let R (a b : A) : Prop := le a b = true.

Lemma insert_sorted (x : A) (l : list A) :
  StronglySorted R l -> StronglySorted R (insert le x l).
Proof.
  induction l as [| y l IH]; simpl; intros Hl.
  - repeat constructor.
  - apply StronglySorted_inv in Hl as [Hl Hy].
    destruct (le x y) eqn:Hxy.
    + constructor; [now constructor |].
      constructor; [exact Hxy |].
      eapply Forall_impl; [| exact Hy].
      intros z Hz. now apply (le_trans x y z).
    + constructor; [now apply IH |].
      eapply Permutation_Forall; [apply Permutation_sym, insert_perm |].
      constructor; [| exact Hy].
      destruct (le_total x y) as [H | H]; [congruence | exact H].
Qed.

Lemma sorted_sorted (l : list A) : StronglySorted R (sorted le l).
Proof.
  induction l as [| x l IH]; simpl.
  - constructor.
  - now apply insert_sorted.
Qed.
End SortedFacts.

(** ** The order on strings *)

Lemma string_leb_trans (a b c : string) :
  String.leb a b = true -> String.leb b c = true -> String.leb a c = true.
Proof.
  unfold String.leb. revert b c.
  induction a as [| x a IH]; intros [| y b] [| z c]; simpl;
    try reflexivity; try discriminate.
  unfold Ascii.compare.
  destruct (N.compare_spec (N_of_ascii x) (N_of_ascii y)) as [Hxy | Hxy | Hxy];
    destruct (N.compare_spec (N_of_ascii y) (N_of_ascii z)) as [Hyz | Hyz | Hyz];
    destruct (N.compare_spec (N_of_ascii x) (N_of_ascii z)) as [Hxz | Hxz | Hxz];
    try reflexivity; try discriminate; try lia.
  apply IH.
Qed.

Lemma count_leb_total (a b : string * Z) :
  (snd a <=? snd b) = true \/ (snd b <=? snd a) = true.
Proof. rewrite !Z.leb_le. lia. Qed.

Lemma count_leb_trans (a b c : string * Z) :
  (snd a <=? snd b) = true -> (snd b <=? snd c) = true ->
  (snd a <=? snd c) = true.
Proof. rewrite !Z.leb_le. lia. Qed.

(** ** Facts about strings and lines *)

Lemma append_assoc (a b c : string) : (a ++ b) ++ c = a ++ (b ++ c).
Proof. induction a as [| x a IH]; simpl; [reflexivity | now rewrite IH]. Qed.

Lemma append_nil_r (a : string) : a ++ EmptyString = a.
Proof. induction a as [| x a IH]; simpl; [reflexivity | now rewrite IH]. Qed.

Lemma length_append (a b : string) :
  String.length (a ++ b) = (String.length a + String.length b)%nat.
Proof. induction a as [| x a IH]; simpl; [reflexivity | now rewrite IH]. Qed.

Lemma length_spaces (n : nat) : String.length (spaces n) = n.
Proof. induction n as [| n IH]; simpl; [reflexivity | now rewrite IH]. Qed.

Lemma length_ljust (w : nat) (t : string) :
  String.length (ljust w t) = Nat.max w (String.length t).
Proof. unfold ljust. rewrite length_append, length_spaces. lia. Qed.

Lemma lines_of_items_eq (rows : list (string * Z)) (acc : string) :
  lines_of_items rows acc = acc ++ join_lines rows.
Proof.
  revert acc. induction rows as [| [c n] rows IH]; intros acc; simpl.
  - now rewrite append_nil_r.
  - now rewrite IH, append_assoc.
Qed.

Lemma lines_of_keys_eq (s : TallySheet) (ks : list string) (acc : string) :
  (forall k, In k ks -> In k (keys (_categories s))) ->
  lines_of_keys ks acc s =
  (Ok (acc ++ join_lines
               (map (fun k => (k, count_or_zero (_categories s) k)) ks)), s).
Proof.
  revert acc. induction ks as [| k ks IH]; intros acc Hks; simpl.
  - unfold ret. now rewrite append_nil_r.
  - assert (Hk : contains k (_categories s) = true)
      by (apply contains_In, Hks; now left).
    apply getitem_contains in Hk as [v Hv].
    rewrite (bind_Ok _ _ _ _ _ (categories_getitem_Some _ _ _ Hv)).
    rewrite IH by (intros k0 Hk0; apply Hks; now right).
    assert (Hc : count_or_zero (_categories s) k = v)
      by (unfold count_or_zero; now rewrite Hv).
    now rewrite Hc, append_assoc.
Qed.

Lemma lines_of_keys_after (s : TallySheet) (ks : list string) (acc : string) :
  snd (lines_of_keys ks acc s) = s.
Proof.
  revert acc. induction ks as [| k ks IH]; intros acc; simpl.
  - reflexivity.
  - destruct (getitem k (_categories s)) as [v |] eqn:Hv.
    + rewrite (bind_Ok _ _ _ _ _ (categories_getitem_Some _ _ _ Hv)). apply IH.
    + unfold bind, categories_getitem, get_categories, bind, raise.
      now rewrite Hv.
Qed.

(** ** [zeroAll] *)

Lemma zero_keys_keys (ks : list string) (d : dict) :
  (forall k, In k ks -> contains k d = true) ->
  keys (zero_keys ks d) = keys d.
Proof.
  revert d. induction ks as [| k ks IH]; intros d Hks; simpl.
  - reflexivity.
  - unfold zero_keys in *. simpl. rewrite IH.
    + apply keys_setitem_present, Hks. now left.
    + intros k0 Hk0. rewrite contains_setitem, (Hks k0) by now right.
      apply orb_true_r.
Qed.

Lemma zero_keys_keeps_zero (ks : list string) (d : dict) (k : string) :
  getitem k d = Some 0 -> getitem k (zero_keys ks d) = Some 0.
Proof.
  revert d. induction ks as [| k' ks IH]; intros d Hk; simpl.
  - exact Hk.
  - apply IH. destruct (String.eqb_spec k k') as [-> | Hne].
    + apply getitem_setitem_same.
    + now rewrite getitem_setitem_other.
Qed.

Lemma zero_keys_zero (ks : list string) (d : dict) (k : string) :
  In k ks -> getitem k (zero_keys ks d) = Some 0.
Proof.
  revert d. induction ks as [| k' ks IH]; intros d Hk; simpl.
  - contradiction.
  - destruct (String.eqb_spec k k') as [-> | Hne].
    + apply zero_keys_keeps_zero, getitem_setitem_same.
    + destruct Hk as [Hk | Hk]; [congruence | now apply IH].
Qed.

Lemma zero_keys_values (P : Z -> Prop) (ks : list string) (d : dict) :
  P 0 -> Forall P (values d) -> Forall P (values (zero_keys ks d)).
Proof.
  intros H0. revert d. induction ks as [| k ks IH]; intros d Hd; simpl.
  - exact Hd.
  - apply IH. now apply values_setitem.
Qed.

Lemma for_each_setTally_zero (s : TallySheet) (ks : list string) (d : dict) :
  (forall k, In k ks -> contains k d = true) ->
  for_each ks (fun key => setTally (VStr key) (VInt 0)) (with_categories s d) =
  (Ok tt, with_categories s (zero_keys ks d)).
Proof.
  revert d. induction ks as [| k ks IH]; intros d Hks; simpl.
  - reflexivity.
  - erewrite bind_Ok.
    + apply IH. intros k0 Hk0.
      rewrite contains_setitem, (Hks k0) by now right.
      apply orb_true_r.
    + rewrite setTally_eq. simpl. rewrite (Hks k) by now left. reflexivity.
Qed.

Lemma zeroAll_eq (s : TallySheet) :
  zeroAll s =
  (Ok tt, with_categories s (zero_keys (keys (_categories s)) (_categories s))).
Proof.
  unfold zeroAll. erewrite bind_Ok by reflexivity.
  pose proof (for_each_setTally_zero s (keys (_categories s)) (_categories s))
    as H.
  rewrite with_categories_same in H. apply H.
  intros k Hk. now apply contains_In.
Qed.

(** ** The invariants of a sheet *)

Lemma after_getTally (c : PyVal) (s : TallySheet) : after (getTally c) s = s.
Proof.
  unfold after. rewrite getTally_eq.
  now destruct (getitem (str c) (_categories s)).
Qed.

Lemma after_itemsSortedByCategory (s : TallySheet) :
  after itemsSortedByCategory s = s.
Proof.
  unfold after, itemsSortedByCategory.
  erewrite bind_Ok by reflexivity. apply lines_of_keys_after.
Qed.

Lemma after_to_str (s : TallySheet) : after to_str s = s.
Proof.
  unfold after, to_str.
  erewrite bind_Ok by reflexivity. erewrite bind_Ok by reflexivity.
  apply lines_of_keys_after.
Qed.

Lemma invariant_with_categories (s : TallySheet) (d : dict) :
  NoDup (keys d) -> Forall (fun v => 0 <= v) (values d) ->
  invariant (with_categories s d).
Proof. intros; split; assumption. Qed.

Lemma invariant_setitem (s : TallySheet) (k : string) (v : Z) :
  invariant s -> 0 <= v ->
  invariant (with_categories s (setitem k v (_categories s))).
Proof.
  intros [Hu Hn] Hv. apply invariant_with_categories.
  - now apply NoDup_keys_setitem.
  - now apply values_setitem.
Qed.

Lemma exec_invariant (c : Call) (s : TallySheet) :
  invariant s -> invariant (exec c s).
Proof.
  intros Hinv. pose proof Hinv as [Hu Hn].
  destruct c as [t | | c a | c | c | c a | c a | c a | | | |]; simpl.
  - destruct t; exact Hinv.
  - exact Hinv.
  - unfold after. rewrite addCategory_eq.
    destruct (int_value a) as [z |]; [| exact Hinv].
    destruct (Z.ltb_spec z 0); [exact Hinv |].
    destruct (getitem (str c) (_categories s)) as [old |] eqn:Hold; simpl.
    + apply invariant_setitem; [exact Hinv |].
      pose proof (values_getitem _ _ _ _ Hn Hold) as Hold0. simpl in Hold0. lia.
    + now apply invariant_setitem.
  - unfold after. rewrite removeCategory_eq.
    destruct (contains (str c) (_categories s)); [| exact Hinv].
    apply invariant_with_categories.
    + now apply NoDup_keys_delitem.
    + now apply values_delitem.
  - now rewrite after_getTally.
  - unfold after. rewrite setTally_eq.
    destruct (int_value a) as [z |]; [| exact Hinv].
    destruct (Z.ltb_spec z 0); [exact Hinv |].
    destruct (contains (str c) (_categories s)); [| exact Hinv].
    now apply invariant_setitem.
  - unfold after. rewrite increment_eq.
    destruct (int_value a) as [z |]; [| exact Hinv].
    destruct (Z.ltb_spec z 0); [exact Hinv |].
    destruct (getitem (str c) (_categories s)) as [old |] eqn:Hold;
      [| exact Hinv].
    apply invariant_setitem; [exact Hinv |].
    pose proof (values_getitem _ _ _ _ Hn Hold) as Hold0. simpl in Hold0. lia.
  - unfold after. rewrite decrement_eq.
    destruct (int_value a) as [z |]; [| exact Hinv].
    destruct (Z.ltb_spec z 0); [exact Hinv |].
    destruct (getitem (str c) (_categories s)) as [old |] eqn:Hold;
      [| exact Hinv].
    destruct (Z.gtb_spec z old); [exact Hinv |].
    apply invariant_setitem; [exact Hinv | lia].
  - unfold after. rewrite zeroAll_eq. simpl.
    apply invariant_with_categories.
    + rewrite zero_keys_keys; [exact Hu |].
      intros k Hk. now apply contains_In.
    + apply zero_keys_values; [lia | exact Hn].
  - now rewrite after_itemsSortedByCategory.
  - exact Hinv.
  - now rewrite after_to_str.
Qed.

Lemma run_invariant (cs : list Call) (s : TallySheet) :
  invariant s -> invariant (run cs s).
Proof.
  revert s. induction cs as [| c cs IH]; intros s Hinv; simpl.
  - exact Hinv.
  - apply IH. now apply exec_invariant.
Qed.

Lemma init_invariant (t : PyVal) (s : TallySheet) :
  init t = Ok s -> invariant s.
Proof.
  destruct t; simpl; try discriminate.
  intros [= <-]. split; constructor.
Qed.

Lemma reachable_invariant (s : TallySheet) : reachable s -> invariant s.
Proof.
  intros (t & s0 & cs & Hinit & ->).
  apply run_invariant. exact (init_invariant t s0 Hinit).
Qed.

(** ** Reading a count through [getTally] *)

Lemma getTally_Ok (c : PyVal) (s : TallySheet) (n : Z) :
  outcome (getTally c) s = Ok n <-> getitem (str c) (_categories s) = Some n.
Proof.
  unfold outcome. rewrite getTally_eq.
  destruct (getitem (str c) (_categories s)); simpl; split; congruence.
Qed.

Lemma getTally_KeyError (c : PyVal) (s : TallySheet) :
  outcome (getTally c) s = Raise KeyError <->
  getitem (str c) (_categories s) = None.
Proof.
  unfold outcome. rewrite getTally_eq.
  destruct (getitem (str c) (_categories s)); simpl; split; congruence.
Qed.

Lemma getTally_with_setitem_same (c : PyVal) (s : TallySheet) (v : Z) :
  outcome (getTally c)
    (with_categories s (setitem (str c) v (_categories s))) = Ok v.
Proof. apply getTally_Ok. simpl. apply getitem_setitem_same. Qed.

Lemma getTally_with_setitem_other (c c' : PyVal) (s : TallySheet) (v : Z) :
  str c' <> str c ->
  outcome (getTally c')
    (with_categories s (setitem (str c) v (_categories s))) =
  outcome (getTally c') s.
Proof.
  intros Hne. unfold outcome. rewrite !getTally_eq. simpl.
  rewrite getitem_setitem_other by exact Hne.
  now destruct (getitem (str c') (_categories s)).
Qed.

(** ** [setTitle] *)

Lemma setTitle_not_text (v : PyVal) (s : TallySheet) :
  isinstance_str v = false -> setTitle v s = (Raise TypeError, s).
Proof. destruct v; simpl; intros H; try discriminate; reflexivity. Qed.

Lemma setTitle_text (t : string) (s : TallySheet) :
  outcome (setTitle (VStr t)) s = Ok tt /\
  outcome getTitle (after (setTitle (VStr t)) s) = Ok (_title s) /\
  title (after (setTitle (VStr t)) s) = Some t.
Proof. repeat split. Qed.

(** C1 (the code departs from the claim).  On the sheet built by
    [TallySheet("Birds")], the call [setTitle("Birds 1/1/19")] returns
    normally, and [getTitle()] afterwards still returns ["Birds"]: the new
    title went to the attribute [title], which [getTitle] does not read. *)
Theorem setTitle_birds_keeps_old_title :
  exists s0,
    init (VStr "Birds") = Ok s0 /\
    outcome (setTitle (VStr "Birds 1/1/19")) s0 = Ok tt /\
    outcome getTitle (after (setTitle (VStr "Birds 1/1/19")) s0) = Ok "Birds" /\
    title (after (setTitle (VStr "Birds 1/1/19")) s0) = Some "Birds 1/1/19".
Proof. eexists. repeat split. Qed.

(** ** [addCategory] *)

(** C2.  For every category [c] and integer [amount >= 0],
    [addCategory(c, amount)] returns normally.  If [c] already exists with
    count [n], its count is increased by [amount], to [n + amount], not
    overwritten, and the keys are unchanged; if [c] is new, it is created,
    as the last key, with count [amount].  Other categories keep their
    counts.  In particular, for a category that is new, [addCategory(c, 0)]
    followed by [addCategory(c, amount)] both return normally and yield
    [getTally(c) == amount]; on a category that already counted [n] the
    same two calls accumulate to [n + amount]. *)
Theorem addCategory_accumulates (s : TallySheet) (c : PyVal) (amount : Z) :
  0 <= amount ->
  let s0 := after (addCategory c (VInt 0)) s in
  let s1 := after (addCategory c (VInt amount)) s in
  let s2 := after (addCategory c (VInt amount)) s0 in
  outcome (addCategory c (VInt amount)) s = Ok tt /\
  outcome (addCategory c (VInt 0)) s = Ok tt /\
  outcome (addCategory c (VInt amount)) s0 = Ok tt /\
  (forall n, outcome (getTally c) s = Ok n ->
     outcome (getTally c) s1 = Ok (n + amount) /\
     keys (_categories s1) = keys (_categories s) /\
     outcome (getTally c) s2 = Ok (n + amount)) /\
  (outcome (getTally c) s = Raise KeyError ->
     _categories s1 = (_categories s ++ [(str c, amount)])%list /\
     outcome (getTally c) s1 = Ok amount /\
     outcome (getTally c) s2 = Ok amount) /\
  (forall c', str c' <> str c ->
     outcome (getTally c') s1 = outcome (getTally c') s).
Proof.
  intros Hamount s0 s1 s2. subst s0 s1 s2.
  assert (Hlt : (amount <? 0) = false) by (apply Z.ltb_ge; exact Hamount).
  assert (Hadd : forall a t, 0 <= a -> outcome (addCategory c (VInt a)) t = Ok tt).
  { intros a t Ha. unfold outcome. rewrite addCategory_eq. simpl.
    replace (a <? 0) with false by (symmetry; now apply Z.ltb_ge).
    now destruct (getitem (str c) (_categories t)). }
  split; [now apply Hadd |]. split; [apply Hadd; lia |].
  split; [now apply Hadd |].
  unfold after. rewrite !addCategory_eq. simpl. rewrite Hlt.
  split; [| split].
  - intros n Hn. apply getTally_Ok in Hn. rewrite Hn. simpl.
    rewrite getitem_setitem_same. simpl.
    repeat split.
    + apply getTally_with_setitem_same.
    + apply keys_setitem_present, getitem_contains. eauto.
    + apply getTally_Ok. simpl.
      rewrite getitem_setitem_same. f_equal. lia.
  - intros Hn. apply getTally_KeyError in Hn. rewrite Hn. simpl.
    rewrite getitem_setitem_same. simpl.
    repeat split.
    + apply setitem_absent, getitem_absent, Hn.
    + apply getTally_with_setitem_same.
    + apply getTally_Ok. simpl. apply getitem_setitem_same.
  - intros c' Hne.
    destruct (getitem (str c) (_categories s)); simpl;
      now apply getTally_with_setitem_other.
Qed.

Lemma addCategory_accumulates_witness :
  outcome (getTally (VStr "robin"))
    (after (addCategory (VStr "robin") (VInt 2)) birds) = Ok (5 + 2) /\
  outcome (getTally (VStr "eagle"))
    (after (addCategory (VStr "eagle") (VInt 2))
       (after (addCategory (VStr "eagle") (VInt 0)) birds)) = Ok 2.
Proof.
  assert (H : 0 <= 2) by lia.
  split.
  - apply (proj1 (proj1 (proj2 (proj2 (proj2
      (addCategory_accumulates birds (VStr "robin") 2 H)))) 5 eq_refl)).
  - apply (proj2 (proj2 (proj1 (proj2 (proj2 (proj2 (proj2
      (addCategory_accumulates birds (VStr "eagle") 2 H))))) eq_refl))).
Defined.

(** ** [decrement] *)

(** C3.  For a category [c] that exists with count [n]: with
    [0 <= k <= n], [decrement(c, k)] returns normally and afterwards
    [getTally(c) == n - k]; with [k > n], it raises [ValueError] and the
    sheet, hence [getTally(c) == n], is unchanged. *)
Theorem decrement_within_count (s : TallySheet) (c : PyVal) (n k : Z) :
  outcome (getTally c) s = Ok n ->
  (0 <= k <= n ->
     outcome (decrement c (VInt k)) s = Ok tt /\
     outcome (getTally c) (after (decrement c (VInt k)) s) = Ok (n - k)) /\
  (k > n ->
     outcome (decrement c (VInt k)) s = Raise ValueError /\
     after (decrement c (VInt k)) s = s /\
     outcome (getTally c) (after (decrement c (VInt k)) s) = Ok n).
Proof.
  intros Hn. pose proof Hn as Hget. apply getTally_Ok in Hget.
  unfold outcome at 1 3, after. rewrite decrement_eq. simpl. rewrite Hget.
  split.
  - intros [Hk0 Hkn].
    destruct (Z.ltb_spec k 0); [lia |].
    destruct (Z.gtb_spec k n); [lia |]. simpl.
    split; [reflexivity | apply getTally_with_setitem_same].
  - intros Hk.
    destruct (Z.ltb_spec k 0); simpl; [now repeat split |].
    destruct (Z.gtb_spec k n); [| lia]. simpl. now repeat split.
Qed.

Lemma decrement_within_count_witness :
  (outcome (decrement (VStr "cardinal") (VInt 2)) birds = Ok tt /\
   outcome (getTally (VStr "cardinal"))
     (after (decrement (VStr "cardinal") (VInt 2)) birds) = Ok (3 - 2)) /\
  (outcome (decrement (VStr "cardinal") (VInt 4)) birds = Raise ValueError /\
   after (decrement (VStr "cardinal") (VInt 4)) birds = birds /\
   outcome (getTally (VStr "cardinal"))
     (after (decrement (VStr "cardinal") (VInt 4)) birds) = Ok 3).
Proof.
  split.
  - apply (decrement_within_count birds (VStr "cardinal") 3 2); [reflexivity | lia].
  - apply (decrement_within_count birds (VStr "cardinal") 3 4); [reflexivity | lia].
Defined.

(** ** [setTally] *)

(** C6.  [setTally(c, amount)] raises [ValueError] when [amount < 0];
    with [amount >= 0] it raises [KeyError] when [c] is not in the sheet,
    and creates nothing; otherwise it returns normally, [c] then counts
    exactly [amount], and the keys, the other counts and the title are as
    before. *)
Theorem setTally_contract (s : TallySheet) (c : PyVal) (amount : Z) :
  (amount < 0 -> setTally c (VInt amount) s = (Raise ValueError, s)) /\
  (0 <= amount -> outcome (getTally c) s = Raise KeyError ->
     setTally c (VInt amount) s = (Raise KeyError, s)) /\
  (0 <= amount -> forall n, outcome (getTally c) s = Ok n ->
     let s' := after (setTally c (VInt amount)) s in
     outcome (setTally c (VInt amount)) s = Ok tt /\
     outcome (getTally c) s' = Ok amount /\
     keys (_categories s') = keys (_categories s) /\
     (forall c', str c' <> str c ->
        outcome (getTally c') s' = outcome (getTally c') s) /\
     _title s' = _title s).
Proof.
  split; [| split].
  - intros Hneg. rewrite setTally_eq. simpl.
    now destruct (Z.ltb_spec amount 0); [| lia].
  - intros Hpos Habs. rewrite setTally_eq. simpl.
    destruct (Z.ltb_spec amount 0); [lia |].
    apply getTally_KeyError, getitem_absent in Habs. now rewrite Habs.
  - intros Hpos n Hn s'. subst s'.
    apply getTally_Ok in Hn.
    assert (Hc : contains (str c) (_categories s) = true)
      by (apply getitem_contains; eauto).
    assert (Heq : setTally c (VInt amount) s =
                  (Ok tt, with_categories s
                            (setitem (str c) amount (_categories s)))).
    { rewrite setTally_eq. simpl.
      destruct (Z.ltb_spec amount 0); [lia |]. now rewrite Hc. }
    unfold outcome at 1, after. rewrite Heq. simpl. repeat split.
    + apply getTally_with_setitem_same.
    + now apply keys_setitem_present.
    + intros c' Hne. now apply getTally_with_setitem_other.
Qed.

Lemma setTally_contract_witness :
  setTally (VStr "robin") (VInt (-1)) birds = (Raise ValueError, birds) /\
  setTally (VStr "eagle") (VInt 4) birds = (Raise KeyError, birds) /\
  outcome (getTally (VStr "robin"))
    (after (setTally (VStr "robin") (VInt 4)) birds) = Ok 4.
Proof.
  split; [| split].
  - apply (proj1 (setTally_contract birds (VStr "robin") (-1))). lia.
  - apply (proj1 (proj2 (setTally_contract birds (VStr "eagle") 4)));
      [lia | reflexivity].
  - assert (H : 0 <= 4) by lia.
    apply (proj1 (proj2 (proj2 (proj2 (setTally_contract birds (VStr "robin") 4))
                          H 5 eq_refl))).
Defined.

(** ** [increment] then [decrement] *)

Lemma increment_decrement_restore (s : TallySheet) (c : PyVal) (n k : Z) :
  outcome (getTally c) s = Ok n -> 0 <= n -> 0 <= k ->
  increment c (VInt k) s =
    (Ok tt, with_categories s (setitem (str c) (n + k) (_categories s))) /\
  decrement c (VInt k)
    (with_categories s (setitem (str c) (n + k) (_categories s))) = (Ok tt, s).
Proof.
  intros Hn Hn0 Hk. apply getTally_Ok in Hn.
  assert (Hc : contains (str c) (_categories s) = true)
    by (apply getitem_contains; eauto).
  rewrite increment_eq, decrement_eq. simpl.
  destruct (Z.ltb_spec k 0); [lia |]. rewrite Hn.
  split; [reflexivity |].
  rewrite getitem_setitem_same.
  destruct (Z.gtb_spec k (n + k)); [lia |].
  rewrite setitem_setitem by exact Hc.
  replace (n + k - k) with n by lia.
  rewrite (setitem_getitem (str c) n (_categories s) Hn).
  now destruct s.
Qed.

(** C9.  On every sheet reachable through the class, for a category [c]
    that exists and an amount [k >= 0], [increment(c, k)] followed by
    [decrement(c, k)] both return normally and leave the whole sheet as it
    was: the count of [c] and of every other category are restored. *)
Theorem increment_decrement_round_trip
    (s : TallySheet) (c : PyVal) (n k : Z) :
  reachable s ->
  outcome (getTally c) s = Ok n ->
  0 <= k ->
  let s1 := after (increment c (VInt k)) s in
  let s2 := after (decrement c (VInt k)) s1 in
  outcome (increment c (VInt k)) s = Ok tt /\
  outcome (getTally c) s1 = Ok (n + k) /\
  outcome (decrement c (VInt k)) s1 = Ok tt /\
  s2 = s /\
  forall c', outcome (getTally c') s2 = outcome (getTally c') s.
Proof.
  intros Hreach Hn Hk s1 s2. subst s1 s2.
  assert (Hn0 : 0 <= n).
  { apply reachable_invariant in Hreach as [_ Hnn].
    apply getTally_Ok in Hn.
    exact (values_getitem (fun v => 0 <= v) _ _ _ Hnn Hn). }
  destruct (increment_decrement_restore s c n k Hn Hn0 Hk) as [Hinc Hdec].
  unfold outcome, after. rewrite Hinc. simpl. rewrite Hdec. simpl.
  repeat split. apply getTally_with_setitem_same.
Qed.

Lemma birds_reachable : reachable birds.
Proof.
  exists (VStr "Birds"), (mkTallySheet "Birds" [] None),
    [CallAddCategory (VStr "robin") (VInt 5);
     CallAddCategory (VStr "sparrow") (VInt 10);
     CallAddCategory (VStr "cardinal") (VInt 3)].
  split; reflexivity.
Defined.

Lemma increment_decrement_round_trip_witness :
  after (decrement (VStr "robin") (VInt 4))
    (after (increment (VStr "robin") (VInt 4)) birds) = birds.
Proof.
  assert (H : 0 <= 4) by lia.
  apply (proj1 (proj2 (proj2 (proj2
    (increment_decrement_round_trip birds (VStr "robin") 5 4
       birds_reachable eq_refl H))))).
Defined.

(** ** Order of the checks *)

(** C10.  In [increment], [decrement] and [setTally] the test
    [amount < 0] comes before the test for the key: with a category that is
    not in the sheet and a negative amount, each raises [ValueError], not
    [KeyError], and leaves the sheet as it was. *)
Theorem negative_amount_checked_before_key
    (s : TallySheet) (c : PyVal) (amount : Z) :
  outcome (getTally c) s = Raise KeyError ->
  amount < 0 ->
  increment c (VInt amount) s = (Raise ValueError, s) /\
  decrement c (VInt amount) s = (Raise ValueError, s) /\
  setTally c (VInt amount) s = (Raise ValueError, s).
Proof.
  intros _ Hneg.
  rewrite increment_eq, decrement_eq, setTally_eq. simpl.
  destruct (Z.ltb_spec amount 0); [| lia]. now repeat split.
Qed.

Lemma negative_amount_checked_before_key_witness :
  increment (VStr "eagle") (VInt (-1)) birds = (Raise ValueError, birds) /\
  decrement (VStr "eagle") (VInt (-1)) birds = (Raise ValueError, birds) /\
  setTally (VStr "eagle") (VInt (-1)) birds = (Raise ValueError, birds).
Proof.
  apply (negative_amount_checked_before_key birds (VStr "eagle") (-1));
    [reflexivity | lia].
Defined.

(** ** Counts are never negative *)

(** C4.  On every sheet obtained from a constructed (empty) sheet by any
    sequence of calls, with any arguments and whether the calls return or
    raise, every count stored in the dict is [>= 0], and so is every count
    [getTally] returns. *)
Theorem counts_never_negative (s : TallySheet) :
  reachable s ->
  Forall (fun v => 0 <= v) (values (_categories s)) /\
  forall c n, outcome (getTally c) s = Ok n -> 0 <= n.
Proof.
  intros Hreach. apply reachable_invariant in Hreach as [_ Hnn].
  split; [exact Hnn |].
  intros c n Hn. apply getTally_Ok in Hn.
  exact (values_getitem (fun v => 0 <= v) _ _ _ Hnn Hn).
Qed.

Lemma counts_never_negative_witness :
  let s := run [CallAddCategory (VStr "cardinal") (VInt 3);
                CallDecrement (VStr "cardinal") (VInt 5);
                CallSetTally (VStr "cardinal") (VInt (-2));
                CallDecrement (VStr "cardinal") (VInt 3);
                CallAddCategory (VStr "robin") (VInt (-1))]
               (mkTallySheet "Tally Sheet" [] None) in
  _categories s = [("cardinal", 0)] /\
  Forall (fun v => 0 <= v) (values (_categories s)).
Proof.
  intros s. split; [reflexivity |].
  apply (counts_never_negative s).
  exists (VStr "Tally Sheet"), (mkTallySheet "Tally Sheet" [] None).
  eexists. split; reflexivity.
Defined.

(** ** Keys are strings *)

(** C5.  Every method that takes a category uses only [str(category)]:
    two arguments with the same string form give the same computation, for
    lookups and for insertions.  On every reachable sheet the keys are
    pairwise different strings.  On a new sheet, [addCategory(5)] followed
    by [addCategory("5", 2)] leaves exactly one category, ["5"], with
    count 2. *)
Theorem keys_are_normalized :
  (forall c1 c2, str c1 = str c2 ->
     (forall a, addCategory c1 a = addCategory c2 a) /\
     removeCategory c1 = removeCategory c2 /\
     getTally c1 = getTally c2 /\
     (forall a, setTally c1 a = setTally c2 a) /\
     (forall a, increment c1 a = increment c2 a) /\
     (forall a, decrement c1 a = decrement c2 a)) /\
  (forall s, reachable s -> NoDup (keys (_categories s))) /\
  (forall t s0, init t = Ok s0 ->
     let s2 := after (addCategory (VStr "5") (VInt 2))
                 (after (addCategory0 (VInt 5)) s0) in
     outcome (addCategory0 (VInt 5)) s0 = Ok tt /\
     outcome (addCategory (VStr "5") (VInt 2))
       (after (addCategory0 (VInt 5)) s0) = Ok tt /\
     _categories s2 = [("5", 2)]).
Proof.
  split; [| split].
  - intros c1 c2 Hstr.
    unfold addCategory, removeCategory, getTally, setTally, increment,
      decrement.
    rewrite Hstr. repeat split.
  - intros s Hreach. now apply reachable_invariant in Hreach as [Hu _].
  - intros t s0 Hinit. destruct t; simpl in Hinit; try discriminate.
    injection Hinit as <-. repeat split.
Qed.

Lemma keys_are_normalized_witness :
  getTally (VInt 5) = getTally (VStr "5") /\
  NoDup (keys (_categories birds)) /\
  _categories
    (after (addCategory (VStr "5") (VInt 2))
       (after (addCategory0 (VInt 5)) (mkTallySheet "Tally Sheet" [] None))) =
  [("5", 2)].
Proof.
  split; [| split].
  - apply (proj1 (proj2 (proj2
      (proj1 keys_are_normalized (VInt 5) (VStr "5") eq_refl)))).
  - apply (proj1 (proj2 keys_are_normalized) birds birds_reachable).
  - apply (proj2 (proj2 (proj2 (proj2 keys_are_normalized)
      (VStr "Tally Sheet") (mkTallySheet "Tally Sheet" [] None) eq_refl))).
Defined.

(** ** [zeroAll] resets every count *)

(** C7.  On every reachable sheet, [zeroAll()] returns normally, keeps the
    keys (and their order), keeps the title, and leaves every count at 0:
    every stored value is 0 and [getTally] of every existing category
    returns 0. *)
Theorem zeroAll_contract (s : TallySheet) :
  reachable s ->
  let s' := after zeroAll s in
  outcome zeroAll s = Ok tt /\
  keys (_categories s') = keys (_categories s) /\
  _title s' = _title s /\
  title s' = title s /\
  Forall (fun v => v = 0) (values (_categories s')) /\
  forall c n, outcome (getTally c) s = Ok n -> outcome (getTally c) s' = Ok 0.
Proof.
  intros Hreach s'. subst s'.
  apply reachable_invariant in Hreach as [Hu _].
  assert (Hks : forall k, In k (keys (_categories s)) ->
                          contains k (_categories s) = true)
    by (intros k Hk; now apply contains_In).
  unfold outcome at 1, after. rewrite zeroAll_eq. simpl.
  split; [reflexivity |].
  split; [now apply zero_keys_keys |].
  split; [reflexivity |]. split; [reflexivity |].
  split.
  - apply values_constant.
    + rewrite zero_keys_keys by exact Hks. exact Hu.
    + intros k Hk. rewrite zero_keys_keys in Hk by exact Hks.
      now apply zero_keys_zero.
  - intros c n Hn. apply getTally_Ok. simpl.
    apply zero_keys_zero, contains_In, getitem_contains.
    apply getTally_Ok in Hn. eauto.
Qed.

Lemma zeroAll_contract_witness :
  outcome zeroAll birds = Ok tt /\
  _categories (after zeroAll birds) =
    [("robin", 0); ("sparrow", 0); ("cardinal", 0)] /\
  Forall (fun v => v = 0) (values (_categories (after zeroAll birds))).
Proof.
  split; [| split].
  - apply (proj1 (zeroAll_contract birds birds_reachable)).
  - reflexivity.
  - apply (proj1 (proj2 (proj2 (proj2 (proj2
      (zeroAll_contract birds birds_reachable)))))).
Defined.

(** ** The sorted listings *)

Lemma StronglySorted_map {A B} (R : A -> A -> Prop) (R' : B -> B -> Prop)
    (f : A -> B) (l : list A) :
  (forall a b, R a b -> R' (f a) (f b)) ->
  StronglySorted R l -> StronglySorted R' (map f l).
Proof.
  intros HR. induction 1 as [| a l Hl IH Ha]; simpl; constructor.
  - exact IH.
  - apply Forall_map. eapply Forall_impl; [| exact Ha]. intros b. apply HR.
Qed.

Lemma itemsSortedByCategory_rows (s : TallySheet) :
  unique_keys s ->
  exists rows,
    itemsSortedByCategory s = (Ok (join_lines rows), s) /\
    Permutation rows (items (_categories s)) /\
    StronglySorted by_category rows.
Proof.
  intros Hu.
  exists (map (fun k => (k, count_or_zero (_categories s) k))
              (sorted String.leb (keys (_categories s)))).
  split; [| split].
  - unfold itemsSortedByCategory. erewrite bind_Ok by reflexivity.
    rewrite lines_of_keys_eq; [reflexivity |].
    intros k Hk. eapply Permutation_in; [apply sorted_perm | exact Hk].
  - rewrite <- (items_by_lookup (_categories s) Hu).
    apply Permutation_map, sorted_perm.
  - eapply StronglySorted_map;
      [| apply (sorted_sorted String.leb String.leb_total string_leb_trans)].
    intros a b Hab. exact Hab.
Qed.

Lemma itemsSortedByCount_rows (s : TallySheet) :
  exists rows,
    itemsSortedByCount s = (Ok (join_lines rows), s) /\
    Permutation rows (items (_categories s)) /\
    StronglySorted by_count rows /\
    forall n, filter (has_count n) rows =
              filter (has_count n) (items (_categories s)).
Proof.
  exists (sorted (fun a b => snd a <=? snd b) (items (_categories s))).
  split; [| split; [| split]].
  - unfold itemsSortedByCount. erewrite bind_Ok by reflexivity.
    unfold ret. now rewrite lines_of_items_eq.
  - apply sorted_perm.
  - rewrite <- (map_id (sorted _ _)).
    eapply StronglySorted_map;
      [| apply (sorted_sorted _ count_leb_total count_leb_trans)].
    intros a b Hab. apply Z.leb_le. exact Hab.
  - intros n. apply sorted_filter.
    unfold has_count. intros a b Ha Hb.
    apply Z.eqb_eq in Ha, Hb. apply Z.leb_le. lia.
Qed.

(** C8.  On every reachable sheet both listings return normally and leave
    the sheet as it was.  [itemsSortedByCategory()] is the text of one
    line per category, the rows being the items of the dict rearranged in
    non-decreasing lexicographic order of the name.
    [itemsSortedByCount()] is the text of one line per category, the rows
    being the items rearranged in non-decreasing order of the count, rows
    of equal count staying in the order the dict iterates them.  A line is
    the name left-justified in 30 characters (longer names are kept whole),
    a space, the count in decimal and a newline. *)
Theorem sorted_listings (s : TallySheet) :
  reachable s ->
  (exists rows,
     itemsSortedByCategory s = (Ok (join_lines rows), s) /\
     Permutation rows (items (_categories s)) /\
     StronglySorted by_category rows) /\
  (exists rows,
     itemsSortedByCount s = (Ok (join_lines rows), s) /\
     Permutation rows (items (_categories s)) /\
     StronglySorted by_count rows /\
     forall n, filter (has_count n) rows =
               filter (has_count n) (items (_categories s))) /\
  (forall category count,
     format_line category count =
       (category ++ spaces (30 - String.length category))
       ++ " " ++ str_int count ++ newline /\
     String.length (category ++ spaces (30 - String.length category)) =
       Nat.max 30 (String.length category)).
Proof.
  intros Hreach. apply reachable_invariant in Hreach as [Hu _].
  split; [now apply itemsSortedByCategory_rows |].
  split; [apply itemsSortedByCount_rows |].
  intros category count. split; [reflexivity |].
  apply (length_ljust 30).
Qed.

Lemma ties_reachable : reachable ties.
Proof.
  exists (VStr "Ties"), (mkTallySheet "Ties" [] None),
    [CallAddCategory (VStr "wren") (VInt 2);
     CallAddCategory (VStr "crow") (VInt 1);
     CallAddCategory (VStr "auk") (VInt 2)].
  split; reflexivity.
Defined.

Example ties_by_count :
  outcome itemsSortedByCount ties =
  Ok (join_lines [("crow", 1); ("wren", 2); ("auk", 2)]).
Proof. reflexivity. Qed.

Example ties_by_category :
  outcome itemsSortedByCategory ties =
  Ok (join_lines [("auk", 2); ("crow", 1); ("wren", 2)]).
Proof. reflexivity. Qed.

Lemma sorted_listings_witness :
  (exists rows,
     itemsSortedByCategory ties = (Ok (join_lines rows), ties) /\
     Permutation rows (items (_categories ties)) /\
     StronglySorted by_category rows) /\
  (exists rows,
     itemsSortedByCount ties = (Ok (join_lines rows), ties) /\
     Permutation rows (items (_categories ties)) /\
     StronglySorted by_count rows /\
     forall n, filter (has_count n) rows =
               filter (has_count n) (items (_categories ties))).
Proof.
  split.
  - apply (proj1 (sorted_listings ties ties_reachable)).
  - apply (proj1 (proj2 (sorted_listings ties ties_reachable))).
Defined.


(** * Further properties of the class *)

(** ** More facts about the dict *)

Lemma getitem_In (k : string) (v : Z) (d : dict) :
  NoDup (keys d) -> (getitem k d = Some v <-> In (k, v) d).
Proof.
  induction d as [| [k' v'] d IH]; simpl; intros Hd.
  - split; [discriminate | tauto].
  - inversion Hd as [| ? ? Hnotin Hd']; subst.
    destruct (String.eqb_spec k k') as [-> | Hne].
    + split.
      * intros [= ->]. now left.
      * intros [[= ->] | Hin]; [reflexivity |].
        exfalso. apply Hnotin. apply (in_map fst) in Hin. exact Hin.
    + rewrite (IH Hd'). split; [tauto |].
      intros [[= <- <-] | Hin]; [congruence | exact Hin].
Qed.

Lemma getitem_delitem_same (k : string) (d : dict) :
  NoDup (keys d) -> getitem k (delitem k d) = None.
Proof.
  induction d as [| [k' v'] d IH]; simpl; intros Hd.
  - reflexivity.
  - inversion Hd as [| ? ? Hnotin Hd']; subst.
    destruct (String.eqb_spec k k') as [-> | Hne]; simpl.
    + apply getitem_absent.
      destruct (contains k' d) eqn:Hc; [| reflexivity].
      apply contains_In in Hc. contradiction.
    + destruct (String.eqb_spec k k'); [contradiction | now apply IH].
Qed.

Lemma getitem_delitem_other (k k0 : string) (d : dict) :
  k0 <> k -> getitem k0 (delitem k d) = getitem k0 d.
Proof.
  intros Hne. induction d as [| [k' v'] d IH]; simpl.
  - reflexivity.
  - destruct (String.eqb_spec k k') as [-> | Hne']; simpl.
    + destruct (String.eqb_spec k0 k'); [contradiction | reflexivity].
    + now rewrite IH.
Qed.

Lemma keys_delitem_split (k : string) (d : dict) :
  contains k d = true ->
  exists l1 l2,
    keys d = (l1 ++ k :: l2)%list /\ keys (delitem k d) = (l1 ++ l2)%list.
Proof.
  induction d as [| [k' v'] d IH]; simpl.
  - discriminate.
  - destruct (String.eqb_spec k k') as [-> | Hne]; simpl.
    + intros _. now exists [], (keys d).
    + intros Hc. destruct (IH Hc) as (l1 & l2 & H1 & H2).
      exists (k' :: l1), l2. simpl. now rewrite H1, H2.
Qed.

Lemma delitem_appended (k : string) (v : Z) (d : dict) :
  contains k d = false -> delitem k (d ++ [(k, v)])%list = d.
Proof.
  induction d as [| [k' v'] d IH]; simpl.
  - now rewrite String.eqb_refl.
  - destruct (String.eqb_spec k k'); [discriminate |].
    intros Hc. f_equal. now apply IH.
Qed.

Lemma zeroed_keys (d : dict) : keys (zeroed d) = keys d.
Proof. unfold zeroed, keys. rewrite map_map. reflexivity. Qed.

Lemma zeroed_characterised (d : dict) :
  Forall (fun v => v = 0) (values d) -> d = zeroed d.
Proof.
  induction d as [| [k v] d IH]; simpl; intros Hd.
  - reflexivity.
  - inversion Hd; subst. simpl in *. f_equal. now apply IH.
Qed.

Lemma zero_keys_zeroed (d : dict) :
  NoDup (keys d) -> zero_keys (keys d) d = zeroed d.
Proof.
  intros Hd.
  assert (Hks : forall k, In k (keys d) -> contains k d = true)
    by (intros k Hk; now apply contains_In).
  pose proof (zero_keys_keys (keys d) d Hks) as Hkeys.
  assert (Hz : Forall (fun v => v = 0) (values (zero_keys (keys d) d))).
  { apply values_constant.
    - now rewrite Hkeys.
    - intros k Hk. rewrite Hkeys in Hk. now apply zero_keys_zero. }
  apply zeroed_characterised in Hz. rewrite Hz.
  unfold zeroed. rewrite <- !(map_map fst (fun k => (k, 0))).
  fold (keys (zero_keys (keys d) d)). fold (keys d). now rewrite Hkeys.
Qed.

(** ** The constructor *)

(** X1.  [TallySheet(t)] raises [TypeError] unless [t] is a string.  For a
    string it builds a sheet whose [getTitle()] is that string and which
    has no category: every [getTally] and [removeCategory] raises
    [KeyError], both listings are the empty text and [zeroAll()] changes
    nothing. *)
Theorem init_contract (t : PyVal) :
  (isinstance_str t = false -> init t = Raise TypeError) /\
  (forall text, t = VStr text ->
     exists s0,
       init t = Ok s0 /\
       outcome getTitle s0 = Ok text /\
       (forall c, outcome (getTally c) s0 = Raise KeyError) /\
       (forall c, removeCategory c s0 = (Raise KeyError, s0)) /\
       itemsSortedByCategory s0 = (Ok EmptyString, s0) /\
       itemsSortedByCount s0 = (Ok EmptyString, s0) /\
       zeroAll s0 = (Ok tt, s0)).
Proof.
  split.
  - destruct t; simpl; intros H; try discriminate; reflexivity.
  - intros text ->. eexists. repeat split.
Qed.

Lemma init_contract_witness :
  init VNone = Raise TypeError /\
  exists s0, init (VStr "Birds") = Ok s0 /\ outcome getTitle s0 = Ok "Birds".
Proof.
  split.
  - apply (proj1 (init_contract VNone)). reflexivity.
  - destruct (proj2 (init_contract (VStr "Birds")) "Birds" eq_refl)
      as (s0 & Hinit & Htitle & _).
    exists s0. split; assumption.
Defined.

(** ** [removeCategory] *)

(** X2.  On a reachable sheet, [removeCategory(c)] raises [KeyError] and
    changes nothing when [c] is missing.  When [c] exists the call returns
    normally and the entry is gone: [getTally(c)] and a second
    [removeCategory(c)] raise [KeyError], every other category keeps its
    count, and the remaining keys keep their order. *)
Theorem removeCategory_contract (s : TallySheet) (c : PyVal) :
  reachable s ->
  (outcome (getTally c) s = Raise KeyError ->
     removeCategory c s = (Raise KeyError, s)) /\
  (forall n, outcome (getTally c) s = Ok n ->
     let s' := after (removeCategory c) s in
     outcome (removeCategory c) s = Ok tt /\
     outcome (getTally c) s' = Raise KeyError /\
     removeCategory c s' = (Raise KeyError, s') /\
     (forall c', str c' <> str c ->
        outcome (getTally c') s' = outcome (getTally c') s) /\
     (exists l1 l2,
        keys (_categories s) = (l1 ++ str c :: l2)%list /\
        keys (_categories s') = (l1 ++ l2)%list) /\
     _title s' = _title s).
Proof.
  intros Hreach. apply reachable_invariant in Hreach as [Hu _].
  split.
  - intros Habs. apply getTally_KeyError, getitem_absent in Habs.
    rewrite removeCategory_eq. now rewrite Habs.
  - intros n Hn s'. subst s'. apply getTally_Ok in Hn.
    assert (Hc : contains (str c) (_categories s) = true)
      by (apply getitem_contains; eauto).
    assert (Heq : removeCategory c s =
                  (Ok tt, with_categories s (delitem (str c) (_categories s))))
      by (rewrite removeCategory_eq; now rewrite Hc).
    assert (Hgone : getitem (str c) (delitem (str c) (_categories s)) = None)
      by now apply getitem_delitem_same.
    unfold outcome at 1, after. rewrite Heq. simpl.
    split; [reflexivity |].
    split; [now apply getTally_KeyError |].
    split.
    { rewrite removeCategory_eq. simpl.
      apply getitem_absent in Hgone. now rewrite Hgone. }
    split.
    { intros c' Hne. unfold outcome. rewrite !getTally_eq. simpl.
      rewrite getitem_delitem_other by exact Hne.
      now destruct (getitem (str c') (_categories s)). }
    split; [now apply keys_delitem_split | reflexivity].
Qed.

Lemma removeCategory_contract_witness :
  removeCategory (VStr "eagle") birds = (Raise KeyError, birds) /\
  outcome (getTally (VStr "robin"))
    (after (removeCategory (VStr "robin")) birds) = Raise KeyError.
Proof.
  split.
  - apply (proj1 (removeCategory_contract birds (VStr "eagle") birds_reachable)).
    reflexivity.
  - apply (proj1 (proj2 (proj2
      (removeCategory_contract birds (VStr "robin") birds_reachable)
      5 eq_refl))).
Defined.

(** X3.  For a category that is not in the sheet and an integer
    [amount >= 0], [addCategory(c, amount)] followed by
    [removeCategory(c)] both return normally and leave the sheet exactly
    as it was. *)
Theorem addCategory_removeCategory_round_trip
    (s : TallySheet) (c : PyVal) (amount : Z) :
  outcome (getTally c) s = Raise KeyError ->
  0 <= amount ->
  let s1 := after (addCategory c (VInt amount)) s in
  outcome (addCategory c (VInt amount)) s = Ok tt /\
  outcome (getTally c) s1 = Ok amount /\
  removeCategory c s1 = (Ok tt, s).
Proof.
  intros Habs Hamount s1. subst s1.
  apply getTally_KeyError in Habs.
  assert (Hc : contains (str c) (_categories s) = false)
    by now apply getitem_absent.
  assert (Heq : addCategory c (VInt amount) s =
                (Ok tt, with_categories s
                          (_categories s ++ [(str c, amount)])%list)).
  { rewrite addCategory_eq. simpl.
    destruct (Z.ltb_spec amount 0); [lia |].
    rewrite Habs. now rewrite setitem_absent. }
  unfold outcome at 1, after. rewrite Heq. simpl.
  split; [reflexivity |]. split.
  - apply getTally_Ok. simpl. rewrite <- (setitem_absent _ _ _ Hc).
    apply getitem_setitem_same.
  - rewrite removeCategory_eq. simpl.
    rewrite <- (setitem_absent _ _ _ Hc) at 1.
    rewrite contains_setitem, String.eqb_refl. simpl.
    rewrite delitem_appended by exact Hc.
    now destruct s.
Qed.

Lemma addCategory_removeCategory_round_trip_witness :
  removeCategory (VStr "eagle")
    (after (addCategory (VStr "eagle") (VInt 2)) birds) = (Ok tt, birds).
Proof.
  apply (addCategory_removeCategory_round_trip birds (VStr "eagle") 2);
    [reflexivity | lia].
Defined.

(** ** What a call can and cannot change *)

(** X4.  A call that raises leaves the sheet exactly as it was, for every
    method, every argument and every sheet: no method mutates before it
    raises. *)
Theorem failed_call_leaves_sheet (c : Call) (s : TallySheet) (e : PyExc) :
  raised c s = Some e -> exec c s = s.
Proof.
  destruct c as [t | | c a | c | c | c a | c a | c a | | | |];
    unfold raised, exec, outcome, after.
  - destruct t; simpl; intros H; try discriminate; reflexivity.
  - reflexivity.
  - rewrite addCategory_eq.
    destruct (int_value a) as [z |]; [| reflexivity].
    destruct (z <? 0); [reflexivity |].
    destruct (getitem (str c) (_categories s)); simpl; discriminate.
  - rewrite removeCategory_eq.
    destruct (contains (str c) (_categories s)); simpl;
      [discriminate | reflexivity].
  - intros _. apply after_getTally.
  - rewrite setTally_eq.
    destruct (int_value a) as [z |]; [| reflexivity].
    destruct (z <? 0); [reflexivity |].
    destruct (contains (str c) (_categories s)); simpl;
      [discriminate | reflexivity].
  - rewrite increment_eq.
    destruct (int_value a) as [z |]; [| reflexivity].
    destruct (z <? 0); [reflexivity |].
    destruct (getitem (str c) (_categories s)); simpl;
      [discriminate | reflexivity].
  - rewrite decrement_eq.
    destruct (int_value a) as [z |]; [| reflexivity].
    destruct (z <? 0); [reflexivity |].
    destruct (getitem (str c) (_categories s)) as [old |]; simpl;
      [| reflexivity].
    destruct (z >? old); simpl; [reflexivity | discriminate].
  - rewrite zeroAll_eq. simpl. discriminate.
  - intros _. apply after_itemsSortedByCategory.
  - reflexivity.
  - intros _. apply after_to_str.
Qed.

Lemma failed_call_leaves_sheet_witness :
  exec (CallDecrement (VStr "cardinal") (VInt 4)) birds = birds.
Proof.
  apply (failed_call_leaves_sheet
           (CallDecrement (VStr "cardinal") (VInt 4)) birds ValueError).
  reflexivity.
Defined.

Lemma exec_title (c : Call) (s : TallySheet) : _title (exec c s) = _title s.
Proof.
  destruct c as [t | | c a | c | c | c a | c a | c a | | | |];
    unfold exec, after.
  - now destruct t.
  - reflexivity.
  - rewrite addCategory_eq.
    destruct (int_value a) as [z |]; [| reflexivity].
    destruct (z <? 0); [reflexivity |].
    now destruct (getitem (str c) (_categories s)).
  - rewrite removeCategory_eq.
    now destruct (contains (str c) (_categories s)).
  - fold (after (getTally c) s). now rewrite after_getTally.
  - rewrite setTally_eq.
    destruct (int_value a) as [z |]; [| reflexivity].
    destruct (z <? 0); [reflexivity |].
    now destruct (contains (str c) (_categories s)).
  - rewrite increment_eq.
    destruct (int_value a) as [z |]; [| reflexivity].
    destruct (z <? 0); [reflexivity |].
    now destruct (getitem (str c) (_categories s)).
  - rewrite decrement_eq.
    destruct (int_value a) as [z |]; [| reflexivity].
    destruct (z <? 0); [reflexivity |].
    destruct (getitem (str c) (_categories s)) as [old |]; [| reflexivity].
    now destruct (z >? old).
  - now rewrite zeroAll_eq.
  - fold (after itemsSortedByCategory s).
    now rewrite after_itemsSortedByCategory.
  - reflexivity.
  - fold (after to_str s). now rewrite after_to_str.
Qed.

(** X5.  No sequence of calls changes what [getTitle()] returns: it is
    the title given to the constructor, also after calls of [setTitle]. *)
Theorem getTitle_is_constructor_title (cs : list Call) (s : TallySheet) :
  outcome getTitle (run cs s) = outcome getTitle s.
Proof.
  revert s. induction cs as [| c cs IH]; intros s; simpl.
  - reflexivity.
  - fold (run cs (exec c s)). rewrite IH.
    unfold outcome, getTitle. simpl. now rewrite exec_title.
Qed.

(** X6.  Only [addCategory] and [removeCategory] change the keys of the
    dict.  Every other call, returning or raising, keeps the keys and
    their order; [addCategory(c, _)] keeps them or appends [str(c)] as
    the last key. *)
Theorem keys_change_only_by_add_and_remove (c : Call) (s : TallySheet) :
  (is_addCategory c = false -> is_removeCategory c = false ->
     keys (_categories (exec c s)) = keys (_categories s)) /\
  (forall cat a, c = CallAddCategory cat a ->
     keys (_categories (exec c s)) = keys (_categories s) \/
     (outcome (getTally cat) s = Raise KeyError /\
      keys (_categories (exec c s)) =
        (keys (_categories s) ++ [str cat])%list)).
Proof.
  split.
  - destruct c as [t | | c a | c | c | c a | c a | c a | | | |];
      simpl; intros Hadd Hrem; try discriminate; unfold after.
    + now destruct t.
    + reflexivity.
    + fold (after (getTally c) s). now rewrite after_getTally.
    + rewrite setTally_eq.
      destruct (int_value a) as [z |]; [| reflexivity].
      destruct (z <? 0); [reflexivity |].
      destruct (contains (str c) (_categories s)) eqn:Hc; [| reflexivity].
      simpl. now apply keys_setitem_present.
    + rewrite increment_eq.
      destruct (int_value a) as [z |]; [| reflexivity].
      destruct (z <? 0); [reflexivity |].
      destruct (getitem (str c) (_categories s)) eqn:Hg; [| reflexivity].
      simpl. apply keys_setitem_present, getitem_contains. eauto.
    + rewrite decrement_eq.
      destruct (int_value a) as [z |]; [| reflexivity].
      destruct (z <? 0); [reflexivity |].
      destruct (getitem (str c) (_categories s)) as [old |] eqn:Hg;
        [| reflexivity].
      destruct (z >? old); [reflexivity |].
      simpl. apply keys_setitem_present, getitem_contains. eauto.
    + rewrite zeroAll_eq. simpl. apply zero_keys_keys.
      intros k Hk. now apply contains_In.
    + fold (after itemsSortedByCategory s).
      now rewrite after_itemsSortedByCategory.
    + reflexivity.
    + fold (after to_str s). now rewrite after_to_str.
  - intros cat a ->. simpl. unfold after. rewrite addCategory_eq.
    destruct (int_value a) as [z |]; [| now left].
    destruct (z <? 0); [now left |].
    destruct (getitem (str cat) (_categories s)) eqn:Hg; simpl.
    + left. apply keys_setitem_present, getitem_contains. eauto.
    + right. split; [now apply getTally_KeyError |].
      rewrite setitem_absent by now apply getitem_absent.
      unfold keys. now rewrite map_app.
Qed.

Lemma keys_change_only_by_add_and_remove_witness :
  keys (_categories (exec (CallSetTally (VStr "robin") (VInt 0)) birds)) =
  keys (_categories birds).
Proof.
  apply (proj1 (keys_change_only_by_add_and_remove
                  (CallSetTally (VStr "robin") (VInt 0)) birds));
    reflexivity.
Defined.

(** ** [increment] and [decrement] *)

Lemma increment_present (s : TallySheet) (c : PyVal) (n a : Z) :
  getitem (str c) (_categories s) = Some n -> 0 <= a ->
  increment c (VInt a) s =
  (Ok tt, with_categories s (setitem (str c) (n + a) (_categories s))).
Proof.
  intros Hn Ha. rewrite increment_eq. simpl.
  destruct (Z.ltb_spec a 0); [lia |]. now rewrite Hn.
Qed.

Lemma decrement_present (s : TallySheet) (c : PyVal) (n k : Z) :
  getitem (str c) (_categories s) = Some n -> 0 <= k <= n ->
  decrement c (VInt k) s =
  (Ok tt, with_categories s (setitem (str c) (n - k) (_categories s))).
Proof.
  intros Hn Hk. rewrite decrement_eq. simpl.
  destruct (Z.ltb_spec k 0); [lia |]. rewrite Hn.
  destruct (Z.gtb_spec k n); [lia | reflexivity].
Qed.

(** X7.  [increment(c, a)] with an integer [a >= 0] raises [KeyError] and
    changes nothing when [c] is missing.  When [c] exists with count [n]
    it returns normally, [c] then counts [n + a], the other categories
    keep their counts, and two increments by [a] and [b] leave the same
    sheet as one increment by [a + b]. *)
Theorem increment_contract (s : TallySheet) (c : PyVal) (a : Z) :
  0 <= a ->
  (outcome (getTally c) s = Raise KeyError ->
     increment c (VInt a) s = (Raise KeyError, s)) /\
  (forall n, outcome (getTally c) s = Ok n ->
     let s1 := after (increment c (VInt a)) s in
     outcome (increment c (VInt a)) s = Ok tt /\
     outcome (getTally c) s1 = Ok (n + a) /\
     (forall c', str c' <> str c ->
        outcome (getTally c') s1 = outcome (getTally c') s) /\
     (forall b, 0 <= b ->
        increment c (VInt b) s1 = increment c (VInt (a + b)) s)).
Proof.
  intros Ha. split.
  - intros Habs. apply getTally_KeyError in Habs.
    rewrite increment_eq. simpl.
    destruct (Z.ltb_spec a 0); [lia |]. now rewrite Habs.
  - intros n Hn s1. subst s1. apply getTally_Ok in Hn.
    assert (Hc : contains (str c) (_categories s) = true)
      by (apply getitem_contains; eauto).
    unfold outcome at 1, after. rewrite (increment_present s c n a Hn Ha).
    simpl. split; [reflexivity |].
    split; [apply getTally_with_setitem_same |].
    split; [intros c' Hne; now apply getTally_with_setitem_other |].
    intros b Hb.
    rewrite (increment_present s c n (a + b) Hn) by lia.
    rewrite (increment_present _ c (n + a) b) by
      (simpl; first [apply getitem_setitem_same | exact Hb]).
    unfold with_categories. simpl.
    rewrite setitem_setitem by exact Hc.
    now rewrite Z.add_assoc.
Qed.

Lemma increment_contract_witness :
  increment (VStr "eagle") (VInt 2) birds = (Raise KeyError, birds) /\
  outcome (getTally (VStr "robin"))
    (after (increment (VStr "robin") (VInt 2)) birds) = Ok (5 + 2).
Proof.
  assert (H : 0 <= 2) by lia.
  split.
  - apply (proj1 (increment_contract birds (VStr "eagle") 2 H)). reflexivity.
  - apply (proj1 (proj2
      (proj2 (increment_contract birds (VStr "robin") 2 H) 5 eq_refl))).
Defined.

(** X8.  For a category that counts [n] and an integer [0 <= k <= n],
    [decrement(c, k)] followed by [increment(c, k)] both return normally
    and leave the sheet exactly as it was. *)
Theorem decrement_increment_round_trip
    (s : TallySheet) (c : PyVal) (n k : Z) :
  outcome (getTally c) s = Ok n ->
  0 <= k <= n ->
  let s1 := after (decrement c (VInt k)) s in
  outcome (decrement c (VInt k)) s = Ok tt /\
  increment c (VInt k) s1 = (Ok tt, s).
Proof.
  intros Hn Hk s1. subst s1. apply getTally_Ok in Hn.
  assert (Hc : contains (str c) (_categories s) = true)
    by (apply getitem_contains; eauto).
  unfold outcome, after. rewrite (decrement_present s c n k Hn Hk). simpl.
  split; [reflexivity |].
  rewrite (increment_present _ c (n - k) k) by
    (simpl; first [apply getitem_setitem_same | lia]).
  unfold with_categories. simpl.
  rewrite setitem_setitem by exact Hc.
  replace (n - k + k) with n by lia.
  rewrite (setitem_getitem (str c) n (_categories s) Hn).
  now destruct s.
Qed.

Lemma decrement_increment_round_trip_witness :
  increment (VStr "robin") (VInt 5)
    (after (decrement (VStr "robin") (VInt 5)) birds) = (Ok tt, birds).
Proof.
  apply (decrement_increment_round_trip birds (VStr "robin") 5 5);
    [reflexivity | lia].
Defined.

Lemma for_each_decrement1 (c : PyVal) {A} (xs : list A) :
  forall (s : TallySheet) (n : nat),
    getitem (str c) (_categories s) = Some (Z.of_nat n) ->
    let r := for_each xs (fun _ => decrement1 c) s in
    ((List.length xs <= n)%nat ->
       fst r = Ok tt /\
       getitem (str c) (_categories (snd r)) =
         Some (Z.of_nat n - Z.of_nat (List.length xs))) /\
    ((n < List.length xs)%nat ->
       fst r = Raise ValueError /\
       getitem (str c) (_categories (snd r)) = Some 0).
Proof.
  induction xs as [| x xs IH]; intros s n Hn r; subst r; simpl.
  - split; [| lia]. intros _. split; [reflexivity |].
    rewrite Hn. f_equal. lia.
  - destruct n as [| n].
    + assert (Hfail : decrement1 c s = (Raise ValueError, s)).
      { unfold decrement1. rewrite decrement_eq. simpl. now rewrite Hn. }
      rewrite (bind_Raise _ _ _ _ _ Hfail). simpl.
      split; [lia |]. intros _. now split.
    + assert (Hok : decrement1 c s =
                    (Ok tt, with_categories s
                              (setitem (str c) (Z.of_nat n) (_categories s)))).
      { unfold decrement1. rewrite (decrement_present s c _ 1 Hn) by lia.
        do 3 f_equal. lia. }
      rewrite (bind_Ok _ _ _ _ _ Hok).
      specialize (IH (with_categories s
                        (setitem (str c) (Z.of_nat n) (_categories s))) n
                     (getitem_setitem_same _ _ _)).
      simpl in IH. destruct IH as [IHle IHgt].
      split.
      * intros Hlen. destruct IHle as [Hr Hg]; [lia |].
        split; [exact Hr |]. rewrite Hg. f_equal. lia.
      * intros Hlen. apply IHgt. lia.
Qed.

(** X9.  The loop [for i in range(m): decrement(c)] on a category that
    counts [n]: when [m <= n] every call returns normally and [c] then
    counts [n - m]; when [m > n] the loop stops with [ValueError] at the
    call that would go below zero, and [c] counts 0. *)
Theorem repeated_decrement (s : TallySheet) (c : PyVal) (n m : nat) :
  outcome (getTally c) s = Ok (Z.of_nat n) ->
  let loop := repeat_call m (decrement1 c) in
  ((m <= n)%nat ->
     outcome loop s = Ok tt /\
     outcome (getTally c) (after loop s) = Ok (Z.of_nat n - Z.of_nat m)) /\
  ((n < m)%nat ->
     outcome loop s = Raise ValueError /\
     outcome (getTally c) (after loop s) = Ok 0).
Proof.
  intros Hn loop. subst loop. apply getTally_Ok in Hn.
  pose proof (for_each_decrement1 c (seq 0 m) s n Hn) as H.
  simpl in H. rewrite length_seq in H. destruct H as [Hle Hgt].
  unfold repeat_call, outcome, after.
  split; intros Hm.
  - destruct (Hle Hm) as [Hr Hg]. split; [exact Hr |].
    now apply getTally_Ok.
  - destruct (Hgt Hm) as [Hr Hg]. split; [exact Hr |].
    now apply getTally_Ok.
Qed.

Lemma repeated_decrement_witness :
  outcome (repeat_call 5 (decrement1 (VStr "cardinal"))) birds =
    Raise ValueError /\
  outcome (getTally (VStr "cardinal"))
    (after (repeat_call 5 (decrement1 (VStr "cardinal"))) birds) = Ok 0.
Proof.
  apply (proj2 (repeated_decrement birds (VStr "cardinal") 3 5 eq_refl)).
  lia.
Defined.

(** ** [addCategory] on a category that exists *)



(** ** Amounts that are not numbers *)

(** X11.  With an amount that is a string or [None], [addCategory],
    [setTally], [increment] and [decrement] raise [TypeError] and leave
    the sheet as it was, whether or not the category exists. *)
Theorem non_numeric_amount_is_TypeError
    (s : TallySheet) (c amount : PyVal) :
  int_value amount = None ->
  addCategory c amount s = (Raise TypeError, s) /\
  setTally c amount s = (Raise TypeError, s) /\
  increment c amount s = (Raise TypeError, s) /\
  decrement c amount s = (Raise TypeError, s).
Proof.
  intros Ha.
  rewrite addCategory_eq, setTally_eq, increment_eq, decrement_eq.
  rewrite Ha. now repeat split.
Qed.

Lemma non_numeric_amount_is_TypeError_witness :
  addCategory (VStr "robin") (VStr "2") birds = (Raise TypeError, birds) /\
  setTally (VStr "robin") (VStr "2") birds = (Raise TypeError, birds) /\
  increment (VStr "robin") (VStr "2") birds = (Raise TypeError, birds) /\
  decrement (VStr "robin") (VStr "2") birds = (Raise TypeError, birds).
Proof.
  apply (non_numeric_amount_is_TypeError birds (VStr "robin") (VStr "2")).
  reflexivity.
Defined.

(** ** [setTally] again *)

(** X12.  For a category that exists and integers [a, b >= 0],
    [setTally(c, a)] followed by [setTally(c, b)] leaves the same sheet
    as [setTally(c, b)] alone, and [setTally(c, getTally(c))] on a
    reachable sheet changes nothing. *)
Theorem setTally_last_write_wins (s : TallySheet) (c : PyVal) (n a b : Z) :
  outcome (getTally c) s = Ok n ->
  0 <= a -> 0 <= b ->
  setTally c (VInt b) (after (setTally c (VInt a)) s) =
    setTally c (VInt b) s /\
  (reachable s -> setTally c (VInt n) s = (Ok tt, s)).
Proof.
  intros Hn Ha Hb. pose proof Hn as Hget. apply getTally_Ok in Hget.
  assert (Hc : contains (str c) (_categories s) = true)
    by (apply getitem_contains; eauto).
  assert (Hset : forall v, 0 <= v ->
            setTally c (VInt v) s =
            (Ok tt, with_categories s (setitem (str c) v (_categories s)))).
  { intros v Hv. rewrite setTally_eq. simpl.
    destruct (Z.ltb_spec v 0); [lia |]. now rewrite Hc. }
  split.
  - unfold after. rewrite (Hset a Ha), (Hset b Hb). simpl.
    rewrite setTally_eq. simpl.
    destruct (Z.ltb_spec b 0); [lia |].
    rewrite contains_setitem, String.eqb_refl. simpl.
    unfold with_categories. simpl.
    now rewrite setitem_setitem by exact Hc.
  - intros Hreach.
    assert (Hn0 : 0 <= n).
    { apply reachable_invariant in Hreach as [_ Hnn].
      exact (values_getitem (fun v => 0 <= v) _ _ _ Hnn Hget). }
    rewrite (Hset n Hn0).
    rewrite (setitem_getitem (str c) n (_categories s) Hget).
    now rewrite with_categories_same.
Qed.

Lemma setTally_last_write_wins_witness :
  setTally (VStr "robin") (VInt 9)
    (after (setTally (VStr "robin") (VInt 1)) birds) =
  setTally (VStr "robin") (VInt 9) birds.
Proof.
  assert (H1 : 0 <= 1) by lia. assert (H9 : 0 <= 9) by lia.
  apply (proj1 (setTally_last_write_wins birds (VStr "robin") 5 1 9
                  eq_refl H1 H9)).
Defined.

(** ** More facts about [sorted] *)

Section SortedCanonical.
Context {A : Type}.
Variable le : A -> A -> bool.

Let Rle (a b : A) : Prop := le a b = true.

Lemma sorted_already (l : list A) :
  StronglySorted Rle l -> sorted le l = l.
Proof.
  induction 1 as [| a l Hl IH Ha]; simpl.
  - reflexivity.
  - rewrite IH. destruct l as [| b l]; simpl; [reflexivity |].
    inversion Ha as [| ? ? Hab _]; subst. unfold Rle in Hab. now rewrite Hab.
Qed.

Hypothesis le_antisym : forall a b, le a b = true -> le b a = true -> a = b.

Lemma strongly_sorted_perm_eq (l1 l2 : list A) :
  StronglySorted Rle l1 -> StronglySorted Rle l2 ->
  Permutation l1 l2 -> l1 = l2.
Proof.
  intros H1. revert l2.
  induction H1 as [| a l1 Hl1 IH Ha]; intros l2 H2 Hperm.
  - now apply Permutation_nil in Hperm.
  - destruct H2 as [| b l2 Hl2 Hb].
    + apply Permutation_sym, Permutation_nil in Hperm. discriminate.
    + assert (Hab : a = b).
      { assert (Hin_a : In a (b :: l2))
          by (eapply Permutation_in; [exact Hperm | now left]).
        assert (Hin_b : In b (a :: l1))
          by (eapply Permutation_in;
              [apply Permutation_sym; exact Hperm | now left]).
        destruct Hin_a as [-> | Hin_a]; [reflexivity |].
        destruct Hin_b as [-> | Hin_b]; [reflexivity |].
        rewrite Forall_forall in Ha, Hb.
        apply le_antisym; [now apply Ha | now apply Hb]. }
      subst b. f_equal. apply IH; [exact Hl2 |].
      now apply Permutation_cons_inv in Hperm.
Qed.

Hypothesis le_total : forall a b, le a b = true \/ le b a = true.
Hypothesis le_trans :
  forall a b c, le a b = true -> le b c = true -> le a c = true.

Lemma sorted_of_permutation (l1 l2 : list A) :
  Permutation l1 l2 -> sorted le l1 = sorted le l2.
Proof.
  intros Hperm. apply strongly_sorted_perm_eq.
  - now apply sorted_sorted.
  - now apply sorted_sorted.
  - eapply perm_trans; [apply sorted_perm |].
    eapply perm_trans; [exact Hperm | apply Permutation_sym, sorted_perm].
Qed.
End SortedCanonical.

(** ** The listings again *)

Lemma length_center_even (t : string) :
  String.length (center_even 60 t) = Nat.max 60 (String.length t).
Proof.
  unfold center_even. rewrite !length_append, !length_spaces.
  rewrite Nat.div2_div.
  pose proof (Nat.Div0.mul_div_le (60 - String.length t) 2) as Hhalf.
  lia.
Qed.

(** X13.  On a reachable sheet [str(sheet)] returns normally, changes
    nothing, and is the title centred in 60 columns (left margin the
    smaller half; a longer title is kept whole), two newlines, then
    exactly the text of [itemsSortedByCategory()]. *)
Theorem str_is_title_then_listing (s : TallySheet) :
  reachable s ->
  exists body,
    itemsSortedByCategory s = (Ok body, s) /\
    to_str s =
      (Ok (center_even 60 (_title s) ++ newline ++ newline ++ body), s) /\
    String.length (center_even 60 (_title s)) =
      Nat.max 60 (String.length (_title s)).
Proof.
  intros Hreach.
  assert (Hks : forall k,
            In k (sorted String.leb (keys (_categories s))) ->
            In k (keys (_categories s)))
    by (intros k Hk; eapply Permutation_in; [apply sorted_perm | exact Hk]).
  eexists. split; [| split].
  - unfold itemsSortedByCategory. erewrite bind_Ok by reflexivity.
    rewrite (lines_of_keys_eq s _ _ Hks). reflexivity.
  - unfold to_str. erewrite bind_Ok by reflexivity.
    erewrite bind_Ok by reflexivity.
    rewrite (lines_of_keys_eq s _ _ Hks). simpl.
    now rewrite !append_assoc.
  - apply length_center_even.
Qed.

Lemma str_is_title_then_listing_witness :
  exists body,
    itemsSortedByCategory birds = (Ok body, birds) /\
    to_str birds =
      (Ok (center_even 60 "Birds" ++ newline ++ newline ++ body), birds).
Proof.
  destruct (str_is_title_then_listing birds birds_reachable)
    as (body & Hbody & Hstr & _).
  exists body. split; assumption.
Defined.

Lemma count_or_zero_perm (d1 d2 : dict) (k : string) :
  NoDup (keys d1) -> Permutation d1 d2 ->
  count_or_zero d1 k = count_or_zero d2 k.
Proof.
  intros Hd1 Hperm.
  assert (Hd2 : NoDup (keys d2)).
  { eapply Permutation_NoDup; [| exact Hd1].
    unfold keys. now apply Permutation_map. }
  unfold count_or_zero.
  destruct (getitem k d1) as [v1 |] eqn:H1.
  - apply (getitem_In k v1 d1 Hd1) in H1.
    apply (Permutation_in _ Hperm) in H1.
    apply (getitem_In k v1 d2 Hd2) in H1. now rewrite H1.
  - destruct (getitem k d2) as [v2 |] eqn:H2; [| reflexivity].
    apply (getitem_In k v2 d2 Hd2) in H2.
    apply (Permutation_in _ (Permutation_sym Hperm)) in H2.
    apply (getitem_In k v2 d1 Hd1) in H2. congruence.
Qed.

(** X14.  [itemsSortedByCategory()] does not depend on the order in which
    the categories were added: two reachable sheets whose dicts hold the
    same items, in any order, return the same text. *)
Theorem itemsSortedByCategory_ignores_insertion_order
    (s1 s2 : TallySheet) :
  reachable s1 ->
  Permutation (items (_categories s1)) (items (_categories s2)) ->
  outcome itemsSortedByCategory s1 = outcome itemsSortedByCategory s2.
Proof.
  intros Hreach Hperm. unfold items in Hperm.
  apply reachable_invariant in Hreach as [Hu _].
  assert (Hkeys : Permutation (keys (_categories s1)) (keys (_categories s2)))
    by (unfold keys; now apply Permutation_map).
  assert (Hin : forall s k,
            In k (sorted String.leb (keys (_categories s))) ->
            In k (keys (_categories s)))
    by (intros s k Hk; eapply Permutation_in; [apply sorted_perm | exact Hk]).
  unfold outcome, itemsSortedByCategory.
  erewrite !bind_Ok by reflexivity.
  rewrite (lines_of_keys_eq s1 _ _ (Hin s1)).
  rewrite (lines_of_keys_eq s2 _ _ (Hin s2)). simpl.
  rewrite (sorted_of_permutation String.leb String.leb_antisym
             String.leb_total string_leb_trans _ _ Hkeys).
  do 2 f_equal. apply map_ext. intros k. f_equal.
  now apply count_or_zero_perm.
Qed.

Lemma ties_reordered_reachable : reachable ties_reordered.
Proof.
  exists (VStr "Ties"), (mkTallySheet "Ties" [] None),
    [CallAddCategory (VStr "auk") (VInt 2);
     CallAddCategory (VStr "wren") (VInt 2);
     CallAddCategory (VStr "crow") (VInt 1)].
  split; reflexivity.
Defined.

Lemma ties_permutation :
  Permutation (items (_categories ties)) (items (_categories ties_reordered)).
Proof.
  simpl. unfold items.
  apply (perm_trans (l' := [("wren", 2); ("auk", 2); ("crow", 1)])).
  - apply perm_skip, perm_swap.
  - apply perm_swap.
Defined.

Lemma itemsSortedByCategory_ignores_insertion_order_witness :
  outcome itemsSortedByCategory ties =
  outcome itemsSortedByCategory ties_reordered.
Proof.
  apply (itemsSortedByCategory_ignores_insertion_order ties ties_reordered
           ties_reachable ties_permutation).
Defined.

(** X15.  When the counts are already in non-decreasing order in the
    dict, [itemsSortedByCount()] lists the categories in the order of the
    dict.  In particular, after [zeroAll()] on a reachable sheet it lists
    every category with count 0 in the order the categories were
    added. *)
Theorem itemsSortedByCount_keeps_sorted_dict (s : TallySheet) :
  (StronglySorted by_count (items (_categories s)) ->
     itemsSortedByCount s = (Ok (join_lines (items (_categories s))), s)) /\
  (reachable s ->
     outcome itemsSortedByCount (after zeroAll s) =
       Ok (join_lines (zeroed (_categories s)))).
Proof.
  assert (Hsorted : forall t,
            StronglySorted by_count (items (_categories t)) ->
            itemsSortedByCount t = (Ok (join_lines (items (_categories t))), t)).
  { intros t Ht. unfold itemsSortedByCount. erewrite bind_Ok by reflexivity.
    unfold ret. rewrite lines_of_items_eq. simpl.
    rewrite sorted_already; [reflexivity |].
    rewrite <- (map_id (items (_categories t))).
    eapply StronglySorted_map; [| exact Ht].
    intros a b Hab. apply Z.leb_le. exact Hab. }
  split; [apply Hsorted |].
  intros Hreach. apply reachable_invariant in Hreach as [Hu _].
  unfold outcome. rewrite Hsorted.
  - unfold after. rewrite zeroAll_eq. simpl.
    now rewrite zero_keys_zeroed.
  - unfold after. rewrite zeroAll_eq. simpl.
    rewrite zero_keys_zeroed by exact Hu.
    unfold items, zeroed.
    induction (_categories s) as [| kv d IH]; simpl; constructor.
    + apply IH.
    + apply Forall_map, Forall_forall. intros x _. unfold by_count. simpl. lia.
Qed.

Lemma itemsSortedByCount_keeps_sorted_dict_witness :
  outcome itemsSortedByCount (after zeroAll birds) =
  Ok (join_lines [("robin", 0); ("sparrow", 0); ("cardinal", 0)]).
Proof.
  apply (proj2 (itemsSortedByCount_keeps_sorted_dict birds) birds_reachable).
Defined.

(** ** [zeroAll] again *)

(** X16.  On a reachable sheet [zeroAll()] leaves the dict with the same
    keys in the same order and every count 0, a second [zeroAll()]
    changes nothing more, and a [decrement(c)] of any category that
    exists then raises [ValueError]. *)
Theorem zeroAll_idempotent (s : TallySheet) :
  reachable s ->
  let s' := after zeroAll s in
  _categories s' = zeroed (_categories s) /\
  zeroAll s' = (Ok tt, s') /\
  forall c n, outcome (getTally c) s = Ok n ->
    decrement1 c s' = (Raise ValueError, s').
Proof.
  intros Hreach s'. subst s'.
  apply reachable_invariant in Hreach as [Hu _].
  assert (Hcats : _categories (after zeroAll s) = zeroed (_categories s)).
  { unfold after. rewrite zeroAll_eq. simpl. now apply zero_keys_zeroed. }
  split; [exact Hcats |]. split.
  - rewrite zeroAll_eq. rewrite Hcats.
    assert (Hu' : NoDup (keys (zeroed (_categories s))))
      by (rewrite zeroed_keys; exact Hu).
    rewrite (zero_keys_zeroed _ Hu').
    assert (Hz : zeroed (zeroed (_categories s)) = zeroed (_categories s))
      by (unfold zeroed; rewrite map_map; reflexivity).
    rewrite Hz, <- Hcats. now rewrite with_categories_same.
  - intros c n Hn. apply getTally_Ok in Hn.
    assert (Hzero : getitem (str c) (_categories (after zeroAll s)) = Some 0).
    { unfold after. rewrite zeroAll_eq. simpl.
      apply zero_keys_zero, contains_In, getitem_contains. eauto. }
    unfold decrement1. rewrite decrement_eq. simpl. now rewrite Hzero.
Qed.

Lemma zeroAll_idempotent_witness :
  zeroAll (after zeroAll birds) = (Ok tt, after zeroAll birds).
Proof.
  apply (proj1 (proj2 (zeroAll_idempotent birds birds_reachable))).
Defined.

(** ** [getTally] *)

(** X17.  On a reachable sheet [getTally(c)] never changes the sheet; it
    returns [n] exactly when [(str(c), n)] is an item of the dict, and
    raises [KeyError] exactly when [str(c)] is not a key. *)
Theorem getTally_contract (s : TallySheet) (c : PyVal) :
  reachable s ->
  after (getTally c) s = s /\
  (forall n, outcome (getTally c) s = Ok n <->
             In (str c, n) (items (_categories s))) /\
  (outcome (getTally c) s = Raise KeyError <->
   ~ In (str c) (keys (_categories s))).
Proof.
  intros Hreach. apply reachable_invariant in Hreach as [Hu _].
  split; [apply after_getTally |]. split.
  - intros n. rewrite getTally_Ok. now apply getitem_In.
  - rewrite getTally_KeyError, <- getitem_absent, <- contains_In.
    destruct (contains (str c) (_categories s)); split; congruence.
Qed.

Lemma getTally_contract_witness :
  outcome (getTally (VStr "eagle")) birds = Raise KeyError.
Proof.
  apply (proj2 (proj2 (getTally_contract birds (VStr "eagle") birds_reachable))).
  simpl. intros [H | [H | [H | []]]]; discriminate.
Defined.
